(** * couchapp/vendor.py: vendor resolution, fetch, install and update

    A shallow embedding of [couchapp/vendor.py].  Python statements become
    computations in a state-and-exception monad over a [world] that holds
    the file system, the logger output and the one module-level dictionary
    [GLOBAL_VENDOR_HANDLERS]. *)

From stdpp Require Import base option list strings gmap fin_maps stringmap.
From Stdlib Require Import ZArith Ascii.

Set Warnings "-register-all".
Set Default Proof Using "Type".

Open Scope string_scope.
Open Scope list_scope.

(** ** Python values that travel through the code *)

(** JSON values as [ui.read_json] returns them (numbers restricted to
    integers). *)
Inductive json : Type :=
  | JNull
  | JBool (b : bool)
  | JNum (n : Z)
  | JStr (s : string)
  | JArr (l : list json)
  | JObj (kvs : list (string * json)).

(** Python truth value of a JSON value: [not v] is [negb (truthy v)]. *)
Definition truthy (v : json) : bool :=
  match v with
  | JNull => false
  | JBool b => b
  | JNum n => negb (Z.eqb n 0)
  | JStr s => negb (String.eqb s "")
  | JArr l => match l with [] => false | _ => true end
  | JObj kvs => match kvs with [] => false | _ => true end
  end.

(** A metadata document: the JSON object stored in [metadata.json]. *)
Abbreviation meta := (gmap string json).

(** [d.get(key, default)] *)
Definition dict_get (d : meta) (key : string) (default : json) : json :=
  match d !! key with
  | Some v => v
  | None => default
  end.

(** Exceptions raised on the paths the code can take. *)
Inductive exn : Type :=
  | VendorError (msg : string)
  | AttributeError (attr : string)
  | NameError (name : string)
  | UnboundLocalError (name : string)
  | ValueError
  | TypeError
  | ImportError (modname : string)
  | OSError (what : string)
  | IOError (what : string).

(** ** The file system *)

(** A path is its list of components; [os.path.join p c] appends one. *)
Abbreviation path := (list string).

Definition os_path_join (p : path) (c : string) : path := p ++ [c].

Inductive content : Type :=
  | Raw (bytes : string)
  | JsonDoc (doc : meta).

Inductive node : Type :=
  | File (c : content)
  | Dir.

Abbreviation filesystem := (gmap path node).

Inductive level : Type := INFO | ERROR.

(** Locations of dictionary objects; every reference to the same dictionary
    is the same location. *)
Abbreviation loc := positive.

Record world : Type := mkWorld {
  fs : filesystem;
  logged : list (level * string);
  dicts : gmap loc (gmap string string)
}.

Definition set_fs (f : filesystem -> filesystem) (w : world) : world :=
  mkWorld (f (fs w)) (logged w) (dicts w).

Definition set_logged (f : list (level * string) -> list (level * string))
    (w : world) : world :=
  mkWorld (fs w) (f (logged w)) (dicts w).

Definition set_dicts (f : gmap loc (gmap string string) -> gmap loc (gmap string string))
    (w : world) : world :=
  mkWorld (fs w) (logged w) (f (dicts w)).

(** ** The monad: state plus exceptions; an exception keeps the state
    reached when it was raised. *)

Inductive outcome (A : Type) : Type :=
  | Ok (a : A) (w : world)
  | Raise (e : exn) (w : world).
Arguments Ok {A} a w.
Arguments Raise {A} e w.

Definition M (A : Type) : Type := world -> outcome A.

Definition ret {A} (a : A) : M A := fun w => Ok a w.
Definition raise {A} (e : exn) : M A := fun w => Raise e w.
Definition bind {A B} (m : M A) (k : A -> M B) : M B :=
  fun w => match m w with
           | Ok a w' => k a w'
           | Raise e w' => Raise e w'
           end.
Definition get_world : M world := fun w => Ok w w.
Definition modify (f : world -> world) : M unit := fun w => Ok tt (f w).

(** [try: m except ValueError: pass] *)
Definition except_ValueError_pass (m : M unit) : M unit :=
  fun w => match m w with
           | Raise ValueError w' => Ok tt w'
           | r => r
           end.

#[export] Instance M_ret : MRet M := @ret.
#[export] Instance M_bind : MBind M := fun A B k m => bind m k.

(** The world an outcome ends in, normal or exceptional. *)
Definition final {A} (r : outcome A) : world :=
  match r with
  | Ok _ w => w
  | Raise _ w => w
  end.

(** [for x in xs: body x] *)
Fixpoint for_each {A} (xs : list A) (body : A -> M unit) : M unit :=
  match xs with
  | [] => ret tt
  | x :: rest => body x;; for_each rest body
  end.

(** ** [os], [os.path], [tempfile], [shutil]

    The library calls the module makes, on the file-system model.  The
    empty path is the root directory and always exists. *)

Definition stat (f : filesystem) (p : path) : option node :=
  match p with
  | [] => Some Dir
  | _ => f !! p
  end.

Definition os_path_isdir (f : filesystem) (p : path) : bool :=
  match stat f p with Some Dir => true | _ => false end.

Definition os_path_isfile (f : filesystem) (p : path) : bool :=
  match stat f p with Some (File _) => true | _ => false end.

Definition os_path_exists (f : filesystem) (p : path) : bool :=
  match stat f p with Some _ => true | None => false end.

(** [relative_to p q] is [Some r] when [q = p ++ r]. *)
Fixpoint relative_to (p q : path) : option path :=
  match p, q with
  | [], _ => Some q
  | c :: p', d :: q' => if String.eqb c d then relative_to p' q' else None
  | _ :: _, [] => None
  end.

Definition child_name (p q : path) : option string :=
  match relative_to p q with
  | Some [c] => Some c
  | _ => None
  end.

Definition children (f : filesystem) (p : path) : list string :=
  omap (fun '(q, _) => child_name p q) (map_to_list f).

(** [os.listdir(p)]; the order of the names is the map's enumeration
    order (Python leaves it unspecified). *)
Definition os_listdir (p : path) : M (list string) :=
  fun w => if os_path_isdir (fs w) p then Ok (children (fs w) p) w
           else Raise (OSError "ENOTDIR") w.

Definition dirname (p : path) : path := removelast p.
Definition basename (p : path) : string := List.last p "".

(** [os.mkdir(p)] *)
Definition os_mkdir (p : path) : M unit :=
  fun w => if os_path_exists (fs w) p then Raise (OSError "EEXIST") w
           else if os_path_isdir (fs w) (dirname p)
                then Ok tt (set_fs (insert p Dir) w)
                else Raise (OSError "ENOENT") w.

(** [os.makedirs(p)]: create missing ancestors first, then the leaf; the
    recursion of the library function runs on the length of the path. *)
Fixpoint makedirs_rec (n : nat) (p : path) : M unit :=
  match n with
  | O => os_mkdir p
  | S n' =>
      w ← get_world;
      (match dirname p with
       | [] => ret tt
       | head => if os_path_exists (fs w) head then ret tt
                 else fun w0 => match makedirs_rec n' head w0 with
                                | Raise (OSError "EEXIST") w1 => Ok tt w1
                                | r => r
                                end
       end);;
      os_mkdir p
  end.

Definition os_makedirs (p : path) : M unit := makedirs_rec (length p) p.

(** [os.unlink(p)] *)
Definition os_unlink (p : path) : M unit :=
  fun w => if os_path_isfile (fs w) p then Ok tt (set_fs (delete p) w)
           else Raise (OSError "ENOENT") w.

(** [tempfile.mkstemp()]: creates an empty file under a name not in use in
    the temporary directory and returns that name (the descriptor, first
    component of the pair in Python, plays no role). *)
Definition tempdir : path := ["tmp"].

Definition tempfile_mkstemp : M path :=
  fun w => if os_path_isdir (fs w) tempdir
           then let used : gset string := list_to_set (children (fs w) tempdir) in
                let fname := os_path_join tempdir (fresh_string_of_set "tmp" used) in
                Ok fname (set_fs (insert fname (File (Raw ""))) w)
           else Raise (IOError "ENOENT") w.

(** [shutil.copy(src, dst)]: copies the regular file [src] to the file
    [dst], or into [dst] when that is a directory.  Opening a directory
    for reading fails, so does a missing source, and so does a destination
    whose parent is not a directory. *)
Definition shutil_copy (src dst : path) : M unit :=
  fun w =>
    let dst := if os_path_isdir (fs w) dst
               then os_path_join dst (basename src) else dst in
    match stat (fs w) src with
    | None => Raise (IOError "ENOENT") w
    | Some Dir => Raise (IOError "EISDIR") w
    | Some (File c) =>
        if os_path_isdir (fs w) dst then Raise (IOError "EISDIR") w
        else if os_path_isdir (fs w) (dirname dst)
             then Ok tt (set_fs (insert dst (File c)) w)
             else Raise (IOError "ENOENT") w
    end.

(** ** The [ui] collaborator *)

(** The argument of [dict.update]: a dictionary, or a sequence of string
    sequences each of which has to be a key/value pair. *)
Inductive update_arg : Type :=
  | UDict (d : gmap string string)
  | USeq (items : list (list string)).

Record UI : Type := mkUI {
  conf : gmap string update_arg;
  verbose : Z
}.

(** Modelled from the spec: [ui.deltree], the recursive delete the context
    collaborator supplies; it removes the path and everything below it. *)
Definition ui_deltree (p : path) : M unit :=
  modify (set_fs (filter (fun '(q, _) => ¬ p `prefix_of` q))).

(** Modelled from the spec: [ui.read_json], the JSON read helper of the
    context collaborator; it returns the document a metadata file holds. *)
Definition ui_read_json (p : path) : M meta :=
  fun w => match stat (fs w) p with
           | Some (File (JsonDoc m)) => Ok m w
           | Some (File (Raw _)) => Raise ValueError w
           | _ => Raise (IOError "ENOENT") w
           end.

(** Modelled from the spec: [ui.write_json], the JSON write helper of the
    context collaborator; it (over)writes the file with the document. *)
Definition ui_write_json (p : path) (m : meta) : M unit :=
  fun w => if os_path_isdir (fs w) p then Raise (IOError "EISDIR") w
           else if os_path_isdir (fs w) (dirname p)
                then Ok tt (set_fs (insert p (File (JsonDoc m))) w)
                else Raise (IOError "ENOENT") w.

(** Modelled from the spec: [ui.logger], the leveled logger. *)
Definition logger_info (msg : string) : M unit :=
  modify (set_logged (fun l => l ++ [(INFO, msg)])).

Definition logger_error (msg : string) : M unit :=
  modify (set_logged (fun l => l ++ [(ERROR, msg)])).

(** [ui.logget]: the collaborator has a [logger]; [logget] is not among
    its attributes. *)
Definition UI_dir : list string :=
  ["conf"; "verbose"; "logger"; "read_json"; "write_json"; "deltree"].

Definition ui_getattr (attr : string) : M unit :=
  if bool_decide (attr ∈ UI_dir) then mret tt
  else raise (AttributeError attr).

(** ** Strings *)

(** [s.split(sep)[0]]: the text before the first occurrence of [sep], the
    whole of [s] when there is none. *)
Fixpoint split_first (sep s : string) : string :=
  if String.prefix sep s then ""
  else match s with
       | EmptyString => ""
       | String c rest => String c (split_first sep rest)
       end.

(** ** Fetch plugins and the import system *)

Abbreviation options := (gmap string json).

(** [fetch(ui, uri, path, *args, **opts)] of a plugin module. *)
Definition handler : Type :=
  UI -> json -> path -> list json -> options -> M unit.

(** What [load_vendors] reads of an imported plugin module; an attribute
    the module lacks is [None]. *)
Record pymodule : Type := mkModule {
  mod_name : option string;
  mod_copyright : option string;
  mod_help : option string;
  mod_scheme : option (list string);
  mod_fetch : option handler
}.

(** A bundle as [fetch_vendor] returns it: [(name, vpath, meta)]. *)
Abbreviation bundle := (string * path * meta)%type.

(** [for x in xs: state = body x state] *)
Fixpoint for_fold {A S} (xs : list A) (s : S) (body : A -> S -> M S) : M S :=
  match xs with
  | [] => mret s
  | x :: rest => s' ← body x s; for_fold rest s' body
  end.

(** ** Module level *)

(** The dictionary object bound to the module global
    [GLOBAL_VENDOR_HANDLERS]. *)
Definition GLOBAL_VENDOR_HANDLERS : loc := 1%positive.

Definition builtin_handlers : gmap string string :=
  {[ "couchdb" := "couchapp.couchdbvendor";
     "git" := "couchapp.gitvendor";
     "hg" := "couchapp.hgvendor" ]}.

(** Executing the module body binds the global to a fresh dictionary. *)
Definition import_vendor_module (w : world) : world :=
  set_dicts (insert GLOBAL_VENDOR_HANDLERS builtin_handlers) w.

(** The names bound in the module's global namespace: its imports and its
    own definitions ([couchapp.utils], star-imported, supplies helper
    functions and no name [p]). *)
Definition module_globals : list string :=
  ["os"; "sys"; "shutil"; "tempfile"; "VendorError"; "__all__";
   "GLOBAL_VENDOR_HANDLERS"; "_tempdir"; "Vendor"].

(** Reading a global name where a path component is expected. *)
Definition load_global (name : string) : M string :=
  if bool_decide (name ∈ module_globals) then raise TypeError
  else raise (NameError name).

(** Reading a local variable that may not have been assigned yet. *)
Definition load_local {A} (name : string) (v : option A) : M A :=
  match v with
  | Some a => mret a
  | None => raise (UnboundLocalError name)
  end.

(** [d.update(arg)] on the dictionary at [l], in place. *)
Definition dict_update (l : loc) (arg : update_arg) : M unit :=
  match arg with
  | UDict d => modify (set_dicts (alter (fun g => d ∪ g) l))
  | USeq items =>
      for_each items (fun item =>
        match item with
        | [k; v] => modify (set_dicts (alter (insert k v) l))
        | _ => raise ValueError
        end)
  end.

(** [d.items()] *)
Definition dict_items (l : loc) : M (list (string * string)) :=
  fun w => Ok (map_to_list (default ∅ (dicts w !! l))) w.

Definition _tempdir : M path :=
  fname ← tempfile_mkstemp;
  os_unlink fname;;
  mret fname.

(** ** class Vendor *)

Record Vendor : Type := mkVendor {
  ui : UI;
  vendor_handlers : loc;
  scheme : gmap string handler;
  vendors : list (string * string * string)
}.

(** The attributes a [Vendor] instance has: those [__init__] sets and the
    methods of the class body. *)
Definition Vendor_dir : list string :=
  ["ui"; "vendor_handlers"; "scheme"; "vendors";
   "__init__"; "load_vendors"; "find_handler"; "installed_vendors";
   "fetch_vendor"; "install"; "update"].

Section Vendor.

(** [__import__(mod_name, {}, {}, [''])]: the plugin modules that can be
    imported. *)
Variable import_ : string -> option pymodule.

Definition getattr_required (attr : string) (v : option string) : M string :=
  match v with
  | Some s => mret s
  | None => raise (AttributeError attr)
  end.

Definition load_vendors (vendor_handlers : loc)
    : M (gmap string handler * list (string * string * string)) :=
  items ← dict_items vendor_handlers;
  for_fold items (∅, [])
    (fun '(handler_name, mod_name_) '(scheme, vendors) =>
       match import_ mod_name_ with
       | None => raise (ImportError mod_name_)
       | Some plugin =>
           match mod_fetch plugin, mod_scheme plugin with
           | Some fetchcmd, Some schemes =>
               copyright ← getattr_required "copyright" (mod_copyright plugin);
               help ← getattr_required "help" (mod_help plugin);
               let vendors :=
                 vendors ++ [(default handler_name (mod_name plugin),
                              copyright, help)] in
               mret (foldl (fun sch s => <[s := fetchcmd]> sch) scheme schemes,
                     vendors)
           | _, _ => mret (scheme, vendors)
           end
       end).

(** [Vendor.__init__(self, ui)] *)
Definition Vendor_init (ui : UI) : M Vendor :=
  let vendor_handlers := GLOBAL_VENDOR_HANDLERS in
  match conf ui !! "vendor_handlers" with
  | Some arg => except_ValueError_pass (dict_update vendor_handlers arg)
  | None => mret tt
  end;;
  '(scheme, vendors) ← load_vendors vendor_handlers;
  mret (mkVendor ui vendor_handlers scheme vendors).

End Vendor.

Definition find_handler (self : Vendor) (uri : json) : M handler :=
  match uri with
  | JStr u =>
      let scheme_ := split_first "://" u in
      match scheme self !! scheme_ with
      | Some h => mret h
      | None => raise (VendorError ("unkonw vendor url scheme: " +:+ u))
      end
  | _ => raise (AttributeError "split")
  end.

Definition installed_vendors (vendordir : path) : M (list string) :=
  names ← os_listdir vendordir;
  for_fold names []
    (fun name vendors =>
       let metaf := os_path_join (os_path_join vendordir name) "metadata.json" in
       w ← get_world;
       if os_path_isfile (fs w) metaf then mret (vendors ++ [name])
       else mret vendors).

(** [self.<attr>(uri)] where a handler is expected: [find_handler] is the
    one method of that shape, and a name outside [Vendor_dir] is not an
    attribute at all. *)
Definition call_method_uri (self : Vendor) (attr : string) (uri : json)
    : M handler :=
  if bool_decide (attr ∈ Vendor_dir) then
    if String.eqb attr "find_handler" then find_handler self uri
    else raise TypeError
  else raise (AttributeError attr).

(** The body of [fetch_vendor] from the point where the fetch command is
    known. *)
Definition fetch_with (self : Vendor) (fetchfun : handler) (uri : json)
    (args : list json) (opts : options) : M (list bundle * path) :=
  path ← _tempdir;
  fetchfun (ui self) uri path args opts;;
  names ← os_listdir path;
  vendors ← for_fold names ([] : list bundle)
    (fun name vendors =>
       p ← load_global "p";
       let vpath := os_path_join path p in
       let metaf := os_path_join vpath "metadata.json" in
       w ← get_world;
       if negb (os_path_isfile (fs w) metaf) then mret vendors
       else
         meta ← ui_read_json metaf;
         os_unlink metaf;;
         let meta := <["fetch_uri" := uri]> meta in
         mret (vendors ++ [(name, vpath, meta)]));
  match vendors with
  | [] =>
      ui_deltree path;;
      raise (VendorError "Invalid vendor, medata not found.")
  | _ => mret (vendors, path)
  end.

Definition fetch_vendor (self : Vendor) (uri : json) (args : list json)
    (opts : options) : M (list bundle * path) :=
  fetchfun ← call_method_uri self "find_vendor" uri;
  fetch_with self fetchfun uri args opts.

(** ** Path strings

    A name read from a metadata document is any string.  Joined to a
    directory it is a path string, which the operating system walks
    component by component each time it is used: an empty component and
    [.] stay where they are, [..] steps to the parent, any other component
    steps into the entry of that name, and every step starts from an
    existing directory.  A name that begins with a slash is walked from
    the root. *)

Fixpoint split_on (sep : ascii) (s current : string) : list string :=
  match s with
  | EmptyString => [current]
  | String c rest =>
      if Ascii.eqb c sep then current :: split_on sep rest ""
      else split_on sep rest (current +:+ String c "")
  end.

(** [s.split('/')] *)
Definition split_slash (s : string) : list string := split_on "/" s "".

Definition walk_step (cur : path) (c : string) : path :=
  if String.eqb c "" || String.eqb c "." then cur
  else if String.eqb c ".." then dirname cur
  else os_path_join cur c.

Fixpoint resolve (f : filesystem) (cur : path) (comps : list string)
    : option path :=
  match comps with
  | [] => Some cur
  | c :: rest =>
      if os_path_isdir f cur then resolve f (walk_step cur c) rest else None
  end.

(** A path string: the directory it is walked from and its components. *)
Abbreviation pathname := (path * list string)%type.

(** [os.path.join(dir, name)] for any string [name]. *)
Definition os_path_join_name (dir : path) (name : string) : pathname :=
  if String.prefix "/" name then ([], split_slash name)
  else (dir, split_slash name).

(** [os.path.join(pn, c)] for a plain component [c]. *)
Definition pathname_join (pn : pathname) (c : string) : pathname :=
  (pn.1, pn.2 ++ [c]).

(** Where a path string leads in a file system, if the walk gets there. *)
Definition locate (f : filesystem) (pn : pathname) : option path :=
  resolve f pn.1 pn.2.

(** [os.path.isdir] of a path string: false when the walk fails. *)
Definition isdir_pathname (f : filesystem) (pn : pathname) : bool :=
  match locate f pn with
  | Some p => os_path_isdir f p
  | None => false
  end.

(** [ui.deltree], [shutil.copy] and [ui.write_json] on a path string. *)
Definition ui_deltree_pathname (pn : pathname) : M unit :=
  fun w => match locate (fs w) pn with
           | Some p => ui_deltree p w
           | None => Ok tt w
           end.

Definition shutil_copy_pathname (src : path) (pn : pathname) : M unit :=
  fun w => match locate (fs w) pn with
           | Some p => shutil_copy src p w
           | None =>
               match stat (fs w) src with
               | None => Raise (IOError "ENOENT") w
               | Some Dir => Raise (IOError "EISDIR") w
               | Some (File _) => Raise (IOError "ENOTDIR") w
               end
           end.

Definition ui_write_json_pathname (pn : pathname) (m : meta) : M unit :=
  fun w => match locate (fs w) pn with
           | Some p => ui_write_json p m w
           | None => Raise (IOError "ENOTDIR") w
           end.

(** [os.path.join(dir, name)] for a name taken from a metadata document:
    anything but a string has no [startswith]. *)
Definition join_name (dir : path) (name : json) : M (string * pathname) :=
  match name with
  | JStr s => mret (s, os_path_join_name dir s)
  | _ => raise (AttributeError "startswith")
  end.

(** [opts.get('force', False)] used as a condition. *)
Definition should_force_of (opts : options) : bool :=
  truthy (dict_get opts "force" (JBool false)).

Section Operations.

(** [install] and [update] reach the fetcher through [self.fetch_vendor],
    bound when the call is made; the operations are defined over that
    binding and [Vendor_install], [Vendor_update] below close it with
    the class's own [fetch_vendor]. *)
Variable self_fetch_vendor :
  json -> list json -> options -> M (list bundle * path).

Variable self_ui : UI.

Definition log_installed : M unit :=
  if (verbose self_ui >=? 1)%Z then logger_info "%s installed in vendors"
  else mret tt.

(** One turn of the loop of [install] (lines 150 to 167). *)
Definition install_bundle (vendordir : path) (should_force : bool)
    (b : bundle) : M unit :=
  let '(name, path, meta) := b in
  '(name, dest) ← join_name vendordir (dict_get meta "name" (JStr name));
  let metaf := pathname_join dest "metadata.json" in
  w ← get_world;
  if isdir_pathname (fs w) dest then
    (if should_force then
       ui_deltree_pathname dest;;
       shutil_copy_pathname path dest;;
       ui_write_json_pathname metaf meta;;
       log_installed
     else mret tt);;
    logger_error ("vendor: " +:+ name +:+ " already installed")
  else
    shutil_copy_pathname path dest;;
    ui_write_json_pathname metaf meta;;
    log_installed.

(** [install] from the return of the fetch on (lines 150 to 169). *)
Definition install_fetched (vendordir : path) (should_force : bool)
    (fetched : list bundle * path) : M Z :=
  let '(new_vendors, temppath) := fetched in
  for_each new_vendors (install_bundle vendordir should_force);;
  ui_deltree temppath;;
  mret 0%Z.

Definition ensure_vendordir (vendordir : path) : M unit :=
  w ← get_world;
  if negb (os_path_isdir (fs w) vendordir) then os_makedirs vendordir
  else mret tt.

Definition install (appdir : path) (uri : json) (args : list json)
    (opts : options) : M Z :=
  let should_force := should_force_of opts in
  let vendordir := os_path_join appdir "vendor" in
  ensure_vendordir vendordir;;
  fetched ← self_fetch_vendor uri args opts;
  install_fetched vendordir should_force fetched.

(** The loop of the single-name branch of [update] (lines 187 to 196);
    [break] ends it at the first bundle of the requested name. *)
Fixpoint update_named (name : string) (dest metaf : path)
    (new_vendors : list bundle) : M unit :=
  match new_vendors with
  | [] => mret tt
  | (vname, vpath, vmeta) :: rest =>
      if negb (String.eqb name vname) then update_named name dest metaf rest
      else
        ui_deltree dest;;
        shutil_copy vpath dest;;
        ui_write_json metaf vmeta;;
        (if (verbose self_ui >=? 1)%Z
         then logger_info (name +:+ " updated in vendors")
         else mret tt)
  end.

(** Single-name [update] from the return of the fetch on. *)
Definition update_named_fetched (name : string) (dest metaf : path)
    (fetched : list bundle * path) : M unit :=
  let '(new_vendors, temppath) := fetched in
  update_named name dest metaf new_vendors;;
  ui_deltree temppath.

(** One turn of the inner loop of bulk [update] (lines 215 to 231).  The
    local [dest1] is read before the loop ever assigns it; the state
    threaded through the loop is [(updated, dest1)]. *)
Definition update_all_bundle (vendordir : path) (should_force : bool)
    (b : bundle) (st : list string * option path)
    : M (list string * option path) :=
  let '(vname, vpath, vmeta) := b in
  let '(updated, dest1) := st in
  old ← load_local "dest1" dest1;
  let dest1 := vendordir ++ old in
  let metaf1 := os_path_join dest1 "metadata.json" in
  w ← get_world;
  if os_path_isdir (fs w) dest1 then
    ui_deltree dest1;;
    shutil_copy vpath dest1;;
    ui_write_json metaf1 vmeta;;
    (if (verbose self_ui >=? 1)%Z
     then logger_info (vname +:+ " updated in vendors")
     else mret tt);;
    mret (updated ++ [vname], Some dest1)
  else if should_force then
    shutil_copy vpath dest1;;
    ui_write_json metaf1 vmeta;;
    (if (verbose self_ui >=? 1)%Z
     then logger_info (vname +:+ " installed in vendors")
     else mret tt);;
    mret (updated ++ [vname], Some dest1)
  else mret (updated, Some dest1).

(** Bulk [update] for one vendor, from the return of its fetch on. *)
Definition update_all_fetched (vendordir : path) (should_force : bool)
    (st : list string * option path) (fetched : list bundle * path)
    : M (list string * option path) :=
  let '(new_vendors, temppath) := fetched in
  st' ← for_fold new_vendors st (update_all_bundle vendordir should_force);
  ui_deltree temppath;;
  mret st'.

(** One turn of the outer loop of bulk [update] (lines 201 to 232). *)
Definition update_all_vendor (vendordir : path) (should_force : bool)
    (args : list json) (opts : options)
    (vendor : string) (st : list string * option path)
    : M (list string * option path) :=
  if bool_decide (vendor ∈ st.1) then mret st
  else
    let dest := os_path_join vendordir vendor in
    let metaf := os_path_join dest "metadata.json" in
    meta ← ui_read_json metaf;
    let uri := dict_get meta "fetch_uri" (JStr "") in
    if negb (truthy uri) then
      (if (verbose self_ui >=? 1)%Z then
         ui_getattr "logget";;
         logger_error ("Can't update vendor `" +:+ vendor
                       +:+ "`: fetch_uri undefined.")
       else mret tt);;
      mret st
    else
      fetched ← self_fetch_vendor uri args opts;
      update_all_fetched vendordir should_force st fetched.

Definition update (appdir : path) (name : option string)
    (args : list json) (opts : options) : M Z :=
  let should_force := should_force_of opts in
  let vendordir := os_path_join appdir "vendor" in
  ensure_vendordir vendordir;;
  match name with
  | Some name =>
      installed ← installed_vendors vendordir;
      if negb (bool_decide (name ∈ installed)) then
        raise (VendorError ("vendor `" +:+ name +:+ "` doesn't exist"))
      else
        let dest := os_path_join vendordir name in
        let metaf := os_path_join dest "metadata.json" in
        meta ← ui_read_json metaf;
        let uri := dict_get meta "fetch_uri" (JStr "") in
        if negb (truthy uri) then
          raise (VendorError ("Can't update vendor `" +:+ name
                              +:+ "`: fetch_uri undefined."))
        else
          fetched ← self_fetch_vendor uri args opts;
          update_named_fetched name dest metaf fetched
  | None =>
      installed ← installed_vendors vendordir;
      for_fold installed ([], None)
        (update_all_vendor vendordir should_force args opts);;
      mret tt
  end;;
  mret 0%Z.

End Operations.

(** The methods as the class has them: [self.fetch_vendor] is the class's
    [fetch_vendor], [self.ui] the instance's collaborator. *)
Definition Vendor_install (self : Vendor) :=
  install (fetch_vendor self) (ui self).

Definition Vendor_update (self : Vendor) :=
  update (fetch_vendor self) (ui self).

(** ** The error kinds of the specification

    The module raises one exception class, [VendorError]; the kinds are
    told apart by the message. *)

Definition UnknownSchemeError (uri : string) : exn :=
  VendorError ("unkonw vendor url scheme: " +:+ uri).

Definition InvalidVendorError : exn :=
  VendorError "Invalid vendor, medata not found.".

Definition VendorNotFoundError (name : string) : exn :=
  VendorError ("vendor `" +:+ name +:+ "` doesn't exist").

Definition MissingSourceError (name : string) : exn :=
  VendorError ("Can't update vendor `" +:+ name +:+ "`: fetch_uri undefined.").

(** ** Notions used by the statements *)

(** A computation that leaves the world as it found it, whatever its
    outcome. *)
Definition readonly {A} (m : M A) : Prop := ∀ w, final (m w) = w.

(** Nothing is left at [p] or below it. *)
Definition released (p : path) (w : world) : Prop :=
  ∀ q, p `prefix_of` q → fs w !! q = None.

(** The dictionary [d.update(arg)] leaves behind, also when it stops at an
    element that is not a pair. *)
Fixpoint update_items (items : list (list string)) (g : gmap string string)
    : gmap string string :=
  match items with
  | [k; v] :: rest => update_items rest (<[k := v]> g)
  | _ => g
  end.

Definition dict_after_update (arg : update_arg) (g : gmap string string)
    : gmap string string :=
  match arg with
  | UDict d => d ∪ g
  | USeq items => update_items items g
  end.

(** Whether a configuration binds the scheme key [k] anew. *)
Definition binds_key (arg : update_arg) (k : string) : bool :=
  match arg with
  | UDict d => bool_decide (is_Some (d !! k))
  | USeq items => bool_decide (k ∈ omap head items)
  end.

Definition rebinds (u : UI) (k : string) : bool :=
  match conf u !! "vendor_handlers" with
  | Some arg => binds_key arg k
  | None => false
  end.

(** Not the code of the module, and never what [self.fetch_vendor] is
    bound to in it: this is [fetch_vendor] read with its two misnamed
    identifiers put right ([find_handler] for [find_vendor], the loop
    variable [name] for [p]).  It is kept to run [install] and [update]
    past the point where the class's own [fetch_vendor] stops them, in the
    second halves of the statements on C3, C5, C6 and C8; no statement is
    settled by it. *)
Definition fetch_as_specified (self : Vendor) (uri : json)
    (args : list json) (opts : options) : M (list bundle * path) :=
  fetchfun ← find_handler self uri;
  path ← _tempdir;
  fetchfun (ui self) uri path args opts;;
  names ← os_listdir path;
  vendors ← for_fold names ([] : list bundle)
    (fun name vendors =>
       let vpath := os_path_join path name in
       let metaf := os_path_join vpath "metadata.json" in
       w ← get_world;
       if negb (os_path_isfile (fs w) metaf) then mret vendors
       else
         meta ← ui_read_json metaf;
         os_unlink metaf;;
         mret (vendors ++ [(name, vpath, <["fetch_uri" := uri]> meta)]));
  match vendors with
  | [] => ui_deltree path;; raise InvalidVendorError
  | _ => mret (vendors, path)
  end.

(** ** A concrete project, used to run the code *)

Module Scenario.

Definition ui0 : UI := mkUI ∅ 1.

Definition put_file (p : path) (c : content) : M unit :=
  modify (set_fs (insert p (File c))).

(** A plugin whose fetch stages one bundle, [jquery]. *)
Definition git_fetch : handler :=
  fun _ _ path _ _ =>
    (os_makedirs (path ++ ["jquery"]);;
     ui_write_json (path ++ ["jquery"; "metadata.json"])
                   {[ "description" := JStr "jQuery" ]};;
     put_file (path ++ ["jquery"; "jquery.js"]) (Raw "new")) : M unit.

(** A plugin whose fetch creates the staging directory and nothing in
    it. *)
Definition hg_fetch : handler :=
  fun _ _ path _ _ => os_makedirs path.

(** A plugin whose fetch stages a directory without metadata. *)
Definition couchdb_fetch : handler :=
  fun _ _ path _ _ =>
    (os_makedirs (path ++ ["docs"]);;
     put_file (path ++ ["docs"; "README"]) (Raw "read me")) : M unit.

Definition plugin (schemes : list string) (f : handler) : pymodule :=
  mkModule None (Some "Apache 2") (Some "fetch a vendor") (Some schemes)
           (Some f).

Definition import0 (name : string) : option pymodule :=
  if String.eqb name "couchapp.gitvendor"
  then Some (plugin ["git"; "git+ssh"] git_fetch)
  else if String.eqb name "couchapp.hgvendor"
  then Some (plugin ["hg"] hg_fetch)
  else if String.eqb name "couchapp.couchdbvendor"
  then Some (plugin ["couchdb"] couchdb_fetch)
  else if String.eqb name "site.svnvendor"
  then Some (plugin ["svn"] git_fetch)
  else None.

Definition self0 : Vendor :=
  mkVendor ui0 GLOBAL_VENDOR_HANDLERS
    {[ "git" := git_fetch; "git+ssh" := git_fetch; "hg" := hg_fetch;
       "couchdb" := couchdb_fetch ]}
    [].

Definition jquery_uri : json := JStr "git://example.org/jquery.git".

Definition app : path := ["app"].
Definition vendordir : path := ["app"; "vendor"].
Definition staging : path := ["tmp"; "tmp"].

(** A project without vendors. *)
Definition w_fresh : world :=
  import_vendor_module
    (mkWorld {[ ["tmp"] := Dir; ["app"] := Dir ]} [] ∅).

Definition installed_jquery (m : meta) : filesystem :=
  {[ ["tmp"] := Dir; ["app"] := Dir; ["app"; "vendor"] := Dir;
     ["app"; "vendor"; "jquery"] := Dir;
     ["app"; "vendor"; "jquery"; "metadata.json"] := File (JsonDoc m);
     ["app"; "vendor"; "jquery"; "jquery.js"] := File (Raw "old") ]}.

(** A project with [jquery] installed from [jquery_uri]. *)
Definition w_installed : world :=
  import_vendor_module
    (mkWorld (installed_jquery {[ "fetch_uri" := jquery_uri ]}) [] ∅).

(** The same, the metadata recording no source. *)
Definition w_nosource : world :=
  import_vendor_module
    (mkWorld (installed_jquery {[ "description" := JStr "jQuery" ]}) [] ∅).

(** Two vendors installed from two different sources. *)
Definition w_two : world :=
  set_fs (fun f =>
    <[ ["app"; "vendor"; "backbone"] := Dir ]>
    (<[ ["app"; "vendor"; "backbone"; "metadata.json"] :=
          File (JsonDoc {[ "fetch_uri" := JStr "git://example.org/backbone.git" ]}) ]> f))
    w_installed.

(** The world in which a handler has staged the [jquery] bundle and its
    metadata file has been read and removed. *)
Definition stage (w : world) : world :=
  set_fs (fun f =>
    <[ ["tmp"; "tmp"] := Dir ]>
    (<[ ["tmp"; "tmp"; "jquery"] := Dir ]>
    (<[ ["tmp"; "tmp"; "jquery"; "jquery.js"] := File (Raw "new") ]> f))) w.

(** A configuration that registers one more scheme handler. *)
Definition ui_svn : UI :=
  mkUI {[ "vendor_handlers" := UDict {[ "svn" := "site.svnvendor" ]} ]} 1.

(** A vendor directory that holds a directory without metadata and
    nothing else. *)
Definition w_plain : world :=
  import_vendor_module
    (mkWorld {[ ["tmp"] := Dir; ["app"] := Dir; ["app"; "vendor"] := Dir;
                ["app"; "vendor"; "notes"] := Dir;
                ["app"; "vendor"; "notes"; "TODO"] := File (Raw "later") ]}
             [] ∅).

Definition ui_quiet : UI := mkUI ∅ 0.

(** A configuration that registers a handler module nobody can import. *)
Definition ui_broken : UI :=
  mkUI {[ "vendor_handlers" := UDict {[ "bzr" := "site.bzrvendor" ]} ]} 1.

(** A configuration given as a sequence whose second element is not a
    pair. *)
Definition ui_seq : UI :=
  mkUI {[ "vendor_handlers" :=
            USeq [["svn"; "site.svnvendor"]; ["broken"];
                  ["hg"; "site.svnvendor"]] ]} 1.

End Scenario.

(** * Properties *)

(** ** Running the monad *)

Section Running.
Context {A B : Type}.
Implicit Types (m : M A) (k : A → M B).

Lemma bind_Ok m k w a w1 : m w = Ok a w1 → (m ≫= k) w = k a w1.
Proof. intros Hm. unfold mbind, M_bind, bind. by rewrite Hm. Qed.

Lemma bind_Raise m k w e w1 : m w = Raise e w1 → (m ≫= k) w = Raise e w1.
Proof. intros Hm. unfold mbind, M_bind, bind. by rewrite Hm. Qed.

Lemma bind_inv_Ok m k w b w' :
  (m ≫= k) w = Ok b w' → ∃ a w1, m w = Ok a w1 ∧ k a w1 = Ok b w'.
Proof.
  unfold mbind, M_bind, bind. destruct (m w) as [a w1|e w1]; [|done].
  intros Hk. by exists a, w1.
Qed.

Lemma readonly_bind m k : readonly m → (∀ a, readonly (k a)) → readonly (m ≫= k).
Proof.
  intros Hm Hk w. unfold mbind, M_bind, bind.
  specialize (Hm w). destruct (m w) as [a w1|e w1]; simpl in Hm; subst w1.
  - apply Hk.
  - done.
Qed.
End Running.

Lemma readonly_ret {A} (a : A) : readonly (mret a).
Proof. by intros w. Qed.

Lemma readonly_raise {A} e : readonly (raise e : M A).
Proof. by intros w. Qed.

Lemma readonly_get_world : readonly get_world.
Proof. by intros w. Qed.

Lemma readonly_for_fold {A S} (xs : list A) (s : S) body :
  (∀ x s, readonly (body x s)) → readonly (for_fold xs s body).
Proof.
  intros Hbody. revert s. induction xs as [|x xs IH]; intros s; simpl.
  - apply readonly_ret.
  - apply readonly_bind; [apply Hbody | apply IH].
Qed.

Lemma readonly_os_listdir p : readonly (os_listdir p).
Proof. intros w. unfold os_listdir. by destruct (os_path_isdir _ _). Qed.

Lemma readonly_ui_read_json p : readonly (ui_read_json p).
Proof.
  intros w. unfold ui_read_json.
  by destruct (stat (fs w) p) as [[[]|]|].
Qed.

Lemma readonly_dict_items l : readonly (dict_items l).
Proof. by intros w. Qed.

Create HintDb readonly.
#[export] Hint Resolve readonly_ret readonly_raise readonly_get_world
  readonly_os_listdir readonly_ui_read_json readonly_dict_items : readonly.

Ltac readonly_step :=
  first [ apply readonly_bind; [|intros ?]
        | apply readonly_for_fold; intros ? ?
        | progress auto with readonly ].

(** ** The file system *)

Lemma relative_to_Some p q r : relative_to p q = Some r ↔ q = p ++ r.
Proof.
  revert q. induction p as [|c p IH]; intros q; simpl.
  - split; [by intros [= ->] | by intros ->].
  - destruct q as [|d q]; [done|].
    destruct (String.eqb_spec c d) as [->|Hne].
    + rewrite IH. split; [by intros -> | by intros [= ->]].
    + split; [done | intros [= ? ?]; by subst].
Qed.

Lemma child_name_Some p q c : child_name p q = Some c ↔ q = p ++ [c].
Proof.
  unfold child_name. destruct (relative_to p q) as [r|] eqn:Hr.
  - apply relative_to_Some in Hr as ->.
    destruct r as [|c' [|c'' r]]; split; try done.
    + intros Heq. apply (f_equal length) in Heq.
      rewrite !length_app in Heq. simpl in Heq. lia.
    + by intros [= ->].
    + intros Heq. by apply app_inv_head in Heq as [= ->].
    + intros Heq. by apply app_inv_head in Heq.
  - split; [done|]. intros ->.
    assert (relative_to p (p ++ [c]) = Some [c]) as Hs by by apply relative_to_Some.
    congruence.
Qed.

Lemma elem_of_children (f : filesystem) p c :
  c ∈ children f p ↔ is_Some (f !! (p ++ [c])).
Proof.
  unfold children. rewrite list_elem_of_omap. split.
  - intros [[q n] [Hin Hc]]. apply child_name_Some in Hc as ->.
    apply elem_of_map_to_list in Hin. by exists n.
  - intros [n Hn]. exists (p ++ [c], n). split.
    + by apply elem_of_map_to_list.
    + by apply child_name_Some.
Qed.

(** [installed_vendors] is the filter its loop computes and touches
    nothing. *)
Lemma installed_vendors_run vendordir w :
  os_path_isdir (fs w) vendordir = true →
  installed_vendors vendordir w
  = Ok (List.filter
          (fun name => os_path_isfile (fs w)
             (os_path_join (os_path_join vendordir name) "metadata.json"))
          (children (fs w) vendordir)) w.
Proof.
  intros Hdir. unfold installed_vendors.
  erewrite bind_Ok; [|by unfold os_listdir; rewrite Hdir].
  generalize (children (fs w) vendordir) as names.
  cut (∀ names acc,
    for_fold names acc
      (fun name vendors =>
         w0 ← get_world;
         if os_path_isfile (fs w0)
              (os_path_join (os_path_join vendordir name) "metadata.json")
         then mret (vendors ++ [name]) else mret vendors) w
    = Ok (acc ++ List.filter
            (fun name => os_path_isfile (fs w)
               (os_path_join (os_path_join vendordir name) "metadata.json"))
            names) w).
  { intros Hgen names. apply (Hgen names []). }
  induction names as [|name names IH]; intros acc; cbn [for_fold List.filter].
  - by rewrite app_nil_r.
  - destruct (os_path_isfile (fs w) _) eqn:Hfile.
    + erewrite bind_Ok; [|by erewrite bind_Ok; [|done]; rewrite Hfile].
      rewrite IH. by rewrite <- app_assoc.
    + erewrite bind_Ok; [|by erewrite bind_Ok; [|done]; rewrite Hfile].
      apply IH.
Qed.

Lemma readonly_installed_vendors vendordir : readonly (installed_vendors vendordir).
Proof. unfold installed_vendors. repeat readonly_step. by destruct (os_path_isfile _ _). Qed.

(** ** The registry and the fetcher *)

Lemma find_handler_known (self : Vendor) (u : string) h w :
  scheme self !! split_first "://" u = Some h →
  find_handler self (JStr u) w = Ok h w.
Proof. intros Hh. unfold find_handler. by rewrite Hh. Qed.

(** [find_handler] does fail with the unknown-scheme error and touches
    nothing; it is the method [fetch_vendor] was meant to call. *)
Lemma find_handler_unknown (self : Vendor) (u : string) w :
  scheme self !! split_first "://" u = None →
  find_handler self (JStr u) w = Raise (UnknownSchemeError u) w.
Proof. intros Hh. unfold find_handler. by rewrite Hh. Qed.

Example split_first_uri : split_first "://" "git://example.org/a://b" = "git".
Proof. reflexivity. Qed.

Example split_first_no_separator : split_first "://" "jquery" = "jquery".
Proof. reflexivity. Qed.

(** [fetch_vendor] looks up [self.find_vendor], which no [Vendor] has: the
    call raises before the URI is looked at and before [_tempdir] runs. *)
Lemma fetch_vendor_raises (self : Vendor) uri args opts w :
  fetch_vendor self uri args opts w = Raise (AttributeError "find_vendor") w.
Proof. reflexivity. Qed.

(** C1 (defect): for a URI whose scheme has no handler, [fetch_vendor]
    stops before any staging directory exists (the world is untouched),
    but with the attribute error of the misnamed lookup and not with the
    unknown-scheme error. *)
Theorem fetch_unknown_scheme (self : Vendor) (u : string) args opts w :
  fetch_vendor self (JStr u) args opts w = Raise (AttributeError "find_vendor") w
  ∧ fetch_vendor self (JStr u) args opts w ≠ Raise (UnknownSchemeError u) w.
Proof. rewrite fetch_vendor_raises. split; [done | discriminate]. Qed.

(** With the fetch command in hand and a staging directory the handler
    left empty, the rest of [fetch_vendor] deletes the staging directory
    and raises the invalid-vendor error. *)
Lemma fetch_with_empty_staging self fetchfun uri args opts w path w1 w2 :
  _tempdir w = Ok path w1 →
  fetchfun (ui self) uri path args opts w1 = Ok tt w2 →
  os_listdir path w2 = Ok [] w2 →
  ∃ w3, fetch_with self fetchfun uri args opts w = Raise InvalidVendorError w3
        ∧ released path w3.
Proof.
  intros Htmp Hfetch Hls. unfold fetch_with.
  erewrite bind_Ok; [|done]. erewrite bind_Ok; [|done].
  erewrite bind_Ok; [|done]. cbn [for_fold].
  erewrite bind_Ok; [|done].
  eexists. split; [reflexivity|].
  intros q Hq. simpl. apply map_lookup_filter_None. right.
  intros x _ Hnot. by apply Hnot.
Qed.

(** As soon as the staging directory has one entry, metadata or not, the
    loop reads the unbound global [p]: the name error leaves the staging
    directory as the handler made it. *)
Lemma fetch_with_nonempty_staging self fetchfun uri args opts w path w1 w2
    name names :
  _tempdir w = Ok path w1 →
  fetchfun (ui self) uri path args opts w1 = Ok tt w2 →
  os_listdir path w2 = Ok (name :: names) w2 →
  fetch_with self fetchfun uri args opts w = Raise (NameError "p") w2.
Proof.
  intros Htmp Hfetch Hls. unfold fetch_with.
  erewrite bind_Ok; [|done]. erewrite bind_Ok; [|done].
  erewrite bind_Ok; [|done]. reflexivity.
Qed.

(** C2 (defect): a fetch whose handler stages a directory without
    metadata.  [fetch_vendor] raises the attribute error before the
    handler runs; and once the handler is resolved, the scan raises the
    name error and the staging directory stays. *)
Theorem fetch_without_metadata :
  fetch_vendor Scenario.self0 (JStr "couchdb://example.org/db") [] ∅
      Scenario.w_fresh
  = Raise (AttributeError "find_vendor") Scenario.w_fresh
  ∧ ∃ w', fetch_with Scenario.self0 Scenario.couchdb_fetch
              (JStr "couchdb://example.org/db") [] ∅ Scenario.w_fresh
          = Raise (NameError "p") w'
          ∧ os_path_isdir (fs w') Scenario.staging = true
          ∧ os_path_isdir (fs w') (Scenario.staging ++ ["docs"]) = true.
Proof.
  split; [apply fetch_vendor_raises|].
  eexists. split; [vm_compute; reflexivity|]. split; vm_compute; reflexivity.
Qed.

(** The empty staging directory is the one case the scan gets right. *)
Example fetch_with_empty_staging_run :
  fetch_with Scenario.self0 Scenario.hg_fetch (JStr "hg://example.org/r") [] ∅
      Scenario.w_fresh
  = Raise InvalidVendorError Scenario.w_fresh.
Proof. vm_compute. reflexivity. Qed.

(** ** install *)

Lemma released_deltree p w : released p (set_fs (filter (fun '(q, _) => ¬ p `prefix_of` q)) w).
Proof.
  intros q Hq. simpl. apply map_lookup_filter_None. right.
  intros x _ Hnot. by apply Hnot.
Qed.

Lemma released_not_isdir p w : p ≠ [] → released p w → os_path_isdir (fs w) p = false.
Proof.
  intros Hp Hrel. unfold os_path_isdir, stat.
  destruct p; [done|]. by rewrite Hrel.
Qed.

Ltac run_code := vm_compute; reflexivity.

(** C3 (defect): installing [jquery] into a project that does not have it.
    [Vendor.install] raises the attribute error of [fetch_vendor]; and with
    a fetch that returns the staged bundle, the copy of the staged
    directory raises instead of installing: no status is returned, no
    metadata file is written and the staging directory stays. *)
Theorem install_new_bundle :
  (∃ w', Vendor_install Scenario.self0 Scenario.app Scenario.jquery_uri [] ∅
             Scenario.w_fresh
         = Raise (AttributeError "find_vendor") w'
         ∧ fs w' !! (Scenario.vendordir ++ ["jquery"; "metadata.json"]) = None)
  ∧ ∃ w', install (fetch_as_specified Scenario.self0) Scenario.ui0
              Scenario.app Scenario.jquery_uri [] ∅ Scenario.w_fresh
          = Raise (IOError "EISDIR") w'
          ∧ fs w' !! (Scenario.vendordir ++ ["jquery"; "metadata.json"]) = None
          ∧ os_path_isdir (fs w') Scenario.staging = true.
Proof.
  split.
  - eexists. split; run_code.
  - eexists. split; [run_code|]. split; run_code.
Qed.

(** The loop of [install] by itself does what is expected of it for a
    bundle whose destination is an existing directory and no [force]: the
    turn returns normally, the file system is the one it started from,
    exactly one "already installed" error is logged, and the loop goes on
    with the remaining bundles. *)
Lemma install_turn_existing_without_force self_ui vendordir name vpath m s
    rest temppath w :
  dict_get m "name" (JStr name) = JStr s →
  isdir_pathname (fs w) (os_path_join_name vendordir s) = true →
  ∃ w', install_bundle self_ui vendordir false (name, vpath, m) w = Ok tt w'
        ∧ fs w' = fs w
        ∧ logged w' = logged w ++ [(ERROR, "vendor: " +:+ s +:+ " already installed")]
        ∧ install_fetched self_ui vendordir false
            ((name, vpath, m) :: rest, temppath) w
          = install_fetched self_ui vendordir false (rest, temppath) w'.
Proof.
  intros Hname Hdest.
  assert (install_bundle self_ui vendordir false (name, vpath, m) w
          = Ok tt (set_logged
                     (fun l => l ++ [(ERROR, "vendor: " +:+ s +:+ " already installed")])
                     w)) as Hstep.
  { unfold install_bundle. rewrite Hname.
    erewrite bind_Ok; [|done]. cbv beta iota.
    erewrite bind_Ok; [|done]. rewrite Hdest.
    erewrite bind_Ok; [|done]. done. }
  eexists. split; [exact Hstep|]. split; [done|]. split; [done|].
  unfold install_fetched. cbn [for_each].
  unfold mbind, M_bind, bind. by rewrite Hstep.
Qed.

(** C4 (defect): installing [jquery], without force, into the project
    that has it already.  [Vendor.install] raises the attribute error of
    [fetch_vendor] before its loop sees any bundle: the destination is
    untouched, as the claim says, but the log is as empty as it was, so
    no "already installed" error is emitted and no next bundle is
    processed. *)
Theorem install_existing_without_force_raises :
  Vendor_install Scenario.self0 Scenario.app Scenario.jquery_uri [] ∅
      Scenario.w_installed
  = Raise (AttributeError "find_vendor") Scenario.w_installed
  ∧ os_path_isdir (fs Scenario.w_installed) (Scenario.vendordir ++ ["jquery"])
    = true
  ∧ logged Scenario.w_installed = [].
Proof. repeat split; run_code. Qed.

(** C5 (defect): the same project, installed with [force].
    [Vendor.install] raises the attribute error of [fetch_vendor]; and
    with a fetch that returns the staged bundle, the old destination is
    deleted and the copy then raises: nothing replaces the destination,
    no metadata is written and neither the "installed" event nor the
    "already installed" error is logged. *)
Theorem install_existing_with_force :
  (∃ w', Vendor_install Scenario.self0 Scenario.app Scenario.jquery_uri []
             {[ "force" := JBool true ]} Scenario.w_installed
         = Raise (AttributeError "find_vendor") w'
         ∧ logged w' = [])
  ∧ ∃ w', install (fetch_as_specified Scenario.self0) Scenario.ui0
              Scenario.app Scenario.jquery_uri []
              {[ "force" := JBool true ]} Scenario.w_installed
          = Raise (IOError "EISDIR") w'
          ∧ os_path_exists (fs w') (Scenario.vendordir ++ ["jquery"]) = false
          ∧ fs w' !! (Scenario.vendordir ++ ["jquery"; "metadata.json"]) = None
          ∧ logged w' = []
          ∧ os_path_isdir (fs w') Scenario.staging = true.
Proof.
  split.
  - eexists. split; run_code.
  - eexists. split; [run_code|]. repeat split; run_code.
Qed.

(** ** update *)

Lemma ensure_vendordir_present vendordir w :
  os_path_isdir (fs w) vendordir = true → ensure_vendordir vendordir w = Ok tt w.
Proof.
  intros Hdir. unfold ensure_vendordir.
  erewrite bind_Ok; [|done]. by rewrite Hdir.
Qed.

Lemma stat_join (f : filesystem) p c :
  stat f (os_path_join p c) = f !! os_path_join p c.
Proof. unfold stat, os_path_join. by destruct p. Qed.

Lemma isdir_join_lookup (f : filesystem) p c :
  os_path_isdir f (os_path_join p c) = true → f !! os_path_join p c = Some Dir.
Proof.
  unfold os_path_isdir. rewrite stat_join.
  by destruct (f !! os_path_join p c) as [[]|].
Qed.

Lemma elem_of_installed (f : filesystem) vendordir name c :
  f !! os_path_join (os_path_join vendordir name) "metadata.json" = Some (File c) →
  is_Some (f !! os_path_join vendordir name) →
  name ∈ List.filter
           (fun name => os_path_isfile f
              (os_path_join (os_path_join vendordir name) "metadata.json"))
           (children f vendordir).
Proof.
  intros Hmeta Hdir. apply list_elem_of_In, filter_In. split.
  - by apply list_elem_of_In, elem_of_children.
  - unfold os_path_isfile. by rewrite stat_join, Hmeta.
Qed.

(** C7: single-name update of an installed vendor whose metadata has no
    [fetch_uri], or an empty one: [update] raises the missing-source error
    in the very world it was called in, so nothing was created, deleted,
    copied or written. *)
Theorem update_without_source fetch self_ui appdir name args opts w m :
  os_path_isdir (fs w) (os_path_join appdir "vendor") = true →
  os_path_isdir (fs w) (os_path_join (os_path_join appdir "vendor") name) = true →
  fs w !! os_path_join (os_path_join (os_path_join appdir "vendor") name)
                       "metadata.json" = Some (File (JsonDoc m)) →
  m !! "fetch_uri" = None ∨ m !! "fetch_uri" = Some (JStr "") →
  update fetch self_ui appdir (Some name) args opts w
  = Raise (MissingSourceError name) w.
Proof.
  intros Hvendor Hdest Hmeta Huri. unfold update.
  erewrite bind_Ok; [|by apply ensure_vendordir_present].
  erewrite bind_Raise; [done|].
  erewrite bind_Ok; [|by apply installed_vendors_run].
  rewrite bool_decide_eq_true_2; last first.
  { eapply elem_of_installed; [done|].
    apply isdir_join_lookup in Hdest. by rewrite Hdest. }
  cbn [negb].
  erewrite bind_Ok; last first.
  { unfold ui_read_json. by rewrite stat_join, Hmeta. }
  unfold dict_get. by destruct Huri as [-> | ->].
Qed.

Lemma update_without_source_witness :
  update (fetch_vendor Scenario.self0) Scenario.ui0 Scenario.app
         (Some "jquery") [] ∅ Scenario.w_nosource
  = Raise (MissingSourceError "jquery") Scenario.w_nosource.
Proof.
  apply (update_without_source _ _ Scenario.app "jquery" [] ∅
           Scenario.w_nosource {[ "description" := JStr "jQuery" ]}).
  - vm_compute. reflexivity.
  - vm_compute. reflexivity.
  - vm_compute. reflexivity.
  - left. vm_compute. reflexivity.
Defined.

(** A vendor that is not installed is reported as such. *)
Example update_unknown_vendor_run :
  update (fetch_vendor Scenario.self0) Scenario.ui0 Scenario.app
         (Some "backbone") [] ∅ Scenario.w_installed
  = Raise (VendorNotFoundError "backbone") Scenario.w_installed.
Proof. run_code. Qed.

(** When no fetched bundle bears the requested name, the single-name loop
    changes nothing and the staging directory is deleted. *)
Lemma update_named_no_match self_ui name dest metaf bundles temppath w :
  Forall (fun b : bundle => b.1.1 ≠ name) bundles →
  update_named_fetched self_ui name dest metaf (bundles, temppath) w
  = Ok tt (set_fs (filter (fun '(q, _) => ¬ temppath `prefix_of` q)) w).
Proof.
  intros Hno. unfold update_named_fetched.
  erewrite bind_Ok; [done|].
  induction Hno as [|[[vname vpath] vmeta] bundles Hne _ IH]; [done|].
  cbn [update_named]. simpl in Hne.
  destruct (String.eqb_spec name vname) as [->|_]; [done|]. exact IH.
Qed.

(** C6 (defect): single-name update of the installed [jquery], whose
    re-fetch stages a bundle of that name.  [Vendor.update] raises the
    attribute error of [fetch_vendor]; and with a fetch that returns the
    staged bundle, the installed directory is deleted and the copy then
    raises: the new contents are not copied in, the metadata is not
    written and the staging directory is not deleted. *)
Theorem single_update_of_installed_vendor :
  Vendor_update Scenario.self0 Scenario.app (Some "jquery") [] ∅
      Scenario.w_installed
  = Raise (AttributeError "find_vendor") Scenario.w_installed
  ∧ ∃ w', update (fetch_as_specified Scenario.self0) Scenario.ui0
              Scenario.app (Some "jquery") [] ∅ Scenario.w_installed
          = Raise (IOError "EISDIR") w'
          ∧ os_path_exists (fs w') (Scenario.vendordir ++ ["jquery"]) = false
          ∧ fs w' !! (Scenario.vendordir ++ ["jquery"; "metadata.json"]) = None
          ∧ os_path_isdir (fs w') Scenario.staging = true.
Proof.
  split; [run_code|].
  eexists. split; [run_code|]. repeat split; run_code.
Qed.

(** The first bundle of a bulk re-fetch reads the local [dest1] while it
    is unbound. *)
Lemma update_all_fetched_unbound self_ui vendordir force updated b rest
    temppath w :
  update_all_fetched self_ui vendordir force (updated, None)
    (b :: rest, temppath) w
  = Raise (UnboundLocalError "dest1") w.
Proof. by destruct b as [[vname vpath] vmeta]. Qed.

(** Nothing in the bulk loop ever binds [dest1] and returns. *)
Lemma update_all_vendor_unbound fetch self_ui vendordir force args opts
    vendor updated st' w w' :
  update_all_vendor fetch self_ui vendordir force args opts vendor
    (updated, None) w = Ok st' w' →
  st'.2 = None.
Proof.
  unfold update_all_vendor. cbn [fst].
  destruct (bool_decide (vendor ∈ updated)); [by intros [= <- _]|].
  intros Hrun. apply bind_inv_Ok in Hrun as (m & w1 & _ & Hrun).
  destruct (truthy (dict_get m "fetch_uri" (JStr ""))); cbn [negb] in Hrun.
  - apply bind_inv_Ok in Hrun as ([bundles temppath] & w2 & _ & Hrun).
    destruct bundles as [|b rest].
    + by injection Hrun as <- _.
    + by rewrite update_all_fetched_unbound in Hrun.
  - apply bind_inv_Ok in Hrun as ([] & w2 & _ & Hrun). by injection Hrun as <- _.
Qed.

(** C8 (defect): bulk update over two vendors installed from two
    different sources.  [Vendor.update] raises the attribute error of
    [fetch_vendor] at the first vendor; and with a fetch that returns the
    staged bundle, the first bundle of the first fetch raises the
    unbound-local error: the run ends in the world the first fetch left,
    its staging directory in place, after one fetch and no clean-up
    instead of two of each. *)
Theorem bulk_update_two_vendors :
  Vendor_update Scenario.self0 Scenario.app None [] ∅ Scenario.w_two
  = Raise (AttributeError "find_vendor") Scenario.w_two
  ∧ update (fetch_as_specified Scenario.self0) Scenario.ui0 Scenario.app
           None [] ∅ Scenario.w_two
    = Raise (UnboundLocalError "dest1") (Scenario.stage Scenario.w_two)
  ∧ os_path_isdir (fs (Scenario.stage Scenario.w_two)) Scenario.staging = true.
Proof. repeat split; run_code. Qed.

(** ** The module-level registry *)

Lemma set_dicts_insert_id l g w :
  dicts w !! l = Some g → set_dicts (insert l g) w = w.
Proof. intros Hl. destruct w as [f lg d]. unfold set_dicts. simpl in *. by rewrite insert_id. Qed.

Lemma set_dicts_alter l (f : gmap string string → gmap string string) g w :
  dicts w !! l = Some g →
  set_dicts (alter f l) w = set_dicts (insert l (f g)) w.
Proof.
  intros Hl. unfold set_dicts. f_equal. apply map_eq. intros i.
  rewrite lookup_alter, lookup_insert.
  destruct (decide (l = i)) as [<-|]; [by rewrite Hl | done].
Qed.

Lemma set_dicts_insert_insert l g1 g2 w :
  set_dicts (insert l g2) (set_dicts (insert l g1) w) = set_dicts (insert l g2) w.
Proof. unfold set_dicts. simpl. by rewrite insert_insert_eq. Qed.

(** [d.update(seq)] either runs through the sequence or stops with
    [ValueError] at the first element that is not a pair; the pairs before
    it are in the dictionary in both cases. *)
Lemma dict_update_seq l items g w :
  dicts w !! l = Some g →
  let w' := set_dicts (insert l (update_items items g)) w in
  dict_update l (USeq items) w = Ok tt w'
  ∨ dict_update l (USeq items) w = Raise ValueError w'.
Proof.
  cbn [dict_update]. revert g w.
  induction items as [|item items IH]; intros g w Hl; cbn [for_each update_items].
  - left. by rewrite set_dicts_insert_id.
  - destruct item as [|k [|v [|x item]]];
      try (right; unfold mbind, M_bind, bind; cbn; by rewrite set_dicts_insert_id).
    assert (modify (set_dicts (alter (insert k v) l)) w
            = Ok tt (set_dicts (insert l (<[k:=v]> g)) w)) as Hstep.
    { unfold modify. by erewrite set_dicts_alter. }
    erewrite !bind_Ok; [|exact Hstep..].
    specialize (IH (<[k:=v]> g) (set_dicts (insert l (<[k:=v]> g)) w)).
    rewrite set_dicts_insert_insert in IH. apply IH.
    simpl. apply lookup_insert_eq.
Qed.

(** The configuration update of [__init__] always completes, and leaves
    its entries in the dictionary object it was applied to. *)
Lemma dict_update_in_place l arg g w :
  dicts w !! l = Some g →
  except_ValueError_pass (dict_update l arg) w
  = Ok tt (set_dicts (insert l (dict_after_update arg g)) w).
Proof.
  intros Hl. unfold except_ValueError_pass. destruct arg as [d|items].
  - cbn [dict_update dict_after_update]. unfold modify.
    by erewrite set_dicts_alter.
  - by destruct (dict_update_seq l items g w Hl) as [-> | ->].
Qed.

Lemma readonly_load_vendors import_ l : readonly (load_vendors import_ l).
Proof.
  unfold load_vendors. repeat readonly_step.
  destruct x as [handler_name mod_name_], s as [sch vs].
  destruct (import_ mod_name_) as [plugin|]; [|auto with readonly].
  destruct (mod_fetch plugin), (mod_scheme plugin); auto with readonly.
  unfold getattr_required.
  destruct (mod_copyright plugin), (mod_help plugin); repeat readonly_step.
Qed.

(** A configuration that does not bind [k] leaves the entry of [k] as it
    is. *)
Lemma update_items_other items (g : gmap string string) k :
  k ∉ omap head items → update_items items g !! k = g !! k.
Proof.
  revert g. induction items as [|item items IH]; intros g Hk; [done|].
  destruct item as [|k' [|v [|x item]]]; try done.
  cbn in Hk. apply not_elem_of_cons in Hk as [Hne Hk].
  cbn [update_items]. rewrite IH; [|done]. by rewrite lookup_insert_ne.
Qed.

Lemma dict_after_update_other arg (g : gmap string string) k :
  binds_key arg k = false → dict_after_update arg g !! k = g !! k.
Proof.
  destruct arg as [d|items]; cbn [binds_key dict_after_update]; intros Hk.
  - apply bool_decide_eq_false in Hk.
    apply lookup_union_r. by apply eq_None_not_Some.
  - apply bool_decide_eq_false in Hk. by apply update_items_other.
Qed.

(** What [__init__] does to the world and which dictionary the new
    instance refers to. *)
Lemma Vendor_init_world import_ u w g :
  dicts w !! GLOBAL_VENDOR_HANDLERS = Some g →
  let g' := match conf u !! "vendor_handlers" with
            | Some arg => dict_after_update arg g
            | None => g
            end in
  final (Vendor_init import_ u w)
  = set_dicts (insert GLOBAL_VENDOR_HANDLERS g') w
  ∧ ∀ v w', Vendor_init import_ u w = Ok v w' →
            vendor_handlers v = GLOBAL_VENDOR_HANDLERS.
Proof.
  intros Hg. unfold Vendor_init.
  set (w1 := set_dicts (insert GLOBAL_VENDOR_HANDLERS
                 match conf u !! "vendor_handlers" with
                 | Some arg => dict_after_update arg g
                 | None => g
                 end) w).
  assert (match conf u !! "vendor_handlers" with
          | Some arg => except_ValueError_pass
                          (dict_update GLOBAL_VENDOR_HANDLERS arg)
          | None => mret tt
          end w = Ok tt w1) as Hupd.
  { subst w1. destruct (conf u !! "vendor_handlers") as [arg|].
    - by apply dict_update_in_place.
    - by rewrite set_dicts_insert_id. }
  cbv zeta. erewrite bind_Ok; [|exact Hupd].
  pose proof (readonly_load_vendors import_ GLOBAL_VENDOR_HANDLERS w1) as Hro.
  unfold mbind, M_bind, bind.
  destruct (load_vendors import_ GLOBAL_VENDOR_HANDLERS w1)
    as [[sch vs] w2|e w2]; simpl in Hro; subst w2.
  - split; [done|]. by intros v w' [= <- _].
  - split; [done|]. intros v w' [=].
Qed.

(** C10: a [Vendor] built from a configuration with a ["vendor_handlers"]
    entry changes the dictionary object of [GLOBAL_VENDOR_HANDLERS] itself
    — the instance refers to that object and no other dictionary comes
    into being — so every [Vendor] built afterwards, whose own
    configuration does not bind the same scheme again, finds the entry in
    the dictionary it refers to. *)
Theorem handlers_updated_in_place import_ ui1 arg g w :
  dicts w !! GLOBAL_VENDOR_HANDLERS = Some g →
  conf ui1 !! "vendor_handlers" = Some arg →
  let w1 := final (Vendor_init import_ ui1 w) in
  dicts w1 = <[GLOBAL_VENDOR_HANDLERS := dict_after_update arg g]> (dicts w)
  ∧ (∀ v1 w', Vendor_init import_ ui1 w = Ok v1 w' →
              vendor_handlers v1 = GLOBAL_VENDOR_HANDLERS)
  ∧ ∀ ui2 later k module v2 w2,
      dicts later = dicts w1 →
      dict_after_update arg g !! k = Some module →
      rebinds ui2 k = false →
      Vendor_init import_ ui2 later = Ok v2 w2 →
      ∃ g2, dicts w2 !! vendor_handlers v2 = Some g2 ∧ g2 !! k = Some module.
Proof.
  intros Hg Harg.
  destruct (Vendor_init_world import_ ui1 w g Hg) as [Hw1 Hv1].
  rewrite Harg in Hw1. cbv zeta. rewrite Hw1.
  split; [done|]. split; [exact Hv1|].
  intros ui2 later k module v2 w2 Hlater Hk Hre Hinit.
  assert (dicts later !! GLOBAL_VENDOR_HANDLERS
          = Some (dict_after_update arg g)) as Hg1.
  { rewrite Hlater. simpl. apply lookup_insert_eq. }
  destruct (Vendor_init_world import_ ui2 later _ Hg1) as [Hw2 Hv2].
  rewrite Hinit in Hw2. simpl in Hw2. rewrite (Hv2 _ _ Hinit), Hw2.
  eexists. split; [apply lookup_insert_eq|].
  unfold rebinds in Hre.
  destruct (conf ui2 !! "vendor_handlers") as [arg2|]; [|done].
  by rewrite dict_after_update_other.
Qed.

Lemma handlers_updated_in_place_witness :
  let w1 := final (Vendor_init Scenario.import0 Scenario.ui_svn Scenario.w_fresh) in
  dicts w1
  = <[GLOBAL_VENDOR_HANDLERS :=
        dict_after_update (UDict {[ "svn" := "site.svnvendor" ]}) builtin_handlers]>
      (dicts Scenario.w_fresh)
  ∧ (∀ v1 w', Vendor_init Scenario.import0 Scenario.ui_svn Scenario.w_fresh = Ok v1 w' →
              vendor_handlers v1 = GLOBAL_VENDOR_HANDLERS)
  ∧ ∀ ui2 later k module v2 w2,
      dicts later = dicts w1 →
      dict_after_update (UDict {[ "svn" := "site.svnvendor" ]}) builtin_handlers !! k
      = Some module →
      rebinds ui2 k = false →
      Vendor_init Scenario.import0 ui2 later = Ok v2 w2 →
      ∃ g2, dicts w2 !! vendor_handlers v2 = Some g2 ∧ g2 !! k = Some module.
Proof.
  apply (handlers_updated_in_place Scenario.import0 Scenario.ui_svn
           (UDict {[ "svn" := "site.svnvendor" ]}) builtin_handlers
           Scenario.w_fresh).
  - vm_compute. reflexivity.
  - vm_compute. reflexivity.
Defined.

(** A [Vendor] built with the plain configuration after one built with the
    [svn] override resolves [svn] URIs, which the built-in table alone
    does not. *)
Example later_vendor_resolves_override :
  match Vendor_init Scenario.import0 Scenario.ui_svn Scenario.w_fresh with
  | Ok _ w1 =>
      match Vendor_init Scenario.import0 Scenario.ui0 w1 with
      | Ok v2 _ => match scheme v2 !! "svn" with Some _ => true | None => false end
      | Raise _ _ => false
      end
  | Raise _ _ => false
  end = true
  ∧ match Vendor_init Scenario.import0 Scenario.ui0 Scenario.w_fresh with
    | Ok v _ => match scheme v !! "svn" with Some _ => true | None => false end
    | Raise _ _ => true
    end = false.
Proof. split; run_code. Qed.

(** A sequence with an element that is not a pair: the pairs before it
    stay in the global dictionary and the constructor carries on. *)
Example partial_update_kept :
  let u := mkUI {[ "vendor_handlers" :=
                     USeq [["svn"; "site.svnvendor"]; ["broken"]; ["bzr"; "site.bzr"]] ]} 0 in
  (dicts (final (Vendor_init Scenario.import0 u Scenario.w_fresh))
     !! GLOBAL_VENDOR_HANDLERS)
  = Some (<["svn" := "site.svnvendor"]> builtin_handlers).
Proof. run_code. Qed.

(** * Further properties of the module *)

(** ** The scheme of a URI *)

Lemma split_first_scheme (s rest : string) :
  Forall (fun c => c ≠ ":"%char) (String.list_ascii_of_string s) →
  split_first "://" (s +:+ "://" +:+ rest) = s.
Proof.
  induction s as [|c s IH]; intros Hs.
  - by destruct rest.
  - apply Forall_cons in Hs as [Hc Hs].
    change (String c s +:+ "://" +:+ rest)
      with (String c (s +:+ "://" +:+ rest)).
    assert (String.prefix "://" (String c (s +:+ "://" +:+ rest)) = false)
      as Hprefix.
    { change (String.prefix "://" (String c (s +:+ "://" +:+ rest)))
        with (if Ascii.ascii_dec ":" c
              then String.prefix "//" (s +:+ "://" +:+ rest) else false).
      by destruct (Ascii.ascii_dec ":" c) as [<-|]. }
    change (split_first "://" (String c (s +:+ "://" +:+ rest)))
      with (if String.prefix "://" (String c (s +:+ "://" +:+ rest)) then ""
            else String c (split_first "://" (s +:+ "://" +:+ rest))).
    by rewrite Hprefix, IH.
Qed.

(** X1: for a URI [<scheme>://<rest>] whose scheme has no colon,
    [find_handler] returns the handler registered under exactly that
    scheme, and raises the unknown-scheme error carrying the whole URI
    when there is none; the world is the same in both cases. *)
Theorem find_handler_by_scheme (self : Vendor) (s rest : string) w :
  Forall (fun c => c ≠ ":"%char) (String.list_ascii_of_string s) →
  find_handler self (JStr (s +:+ "://" +:+ rest)) w
  = match scheme self !! s with
    | Some h => Ok h w
    | None => Raise (UnknownSchemeError (s +:+ "://" +:+ rest)) w
    end.
Proof.
  intros Hs. unfold find_handler. rewrite (split_first_scheme s rest Hs).
  by destruct (scheme self !! s).
Qed.

Lemma find_handler_by_scheme_witness :
  find_handler Scenario.self0 (JStr ("git+ssh" +:+ "://" +:+ "example.org/a:b"))
    Scenario.w_fresh
  = match scheme Scenario.self0 !! "git+ssh" with
    | Some h => Ok h Scenario.w_fresh
    | None => Raise (UnknownSchemeError ("git+ssh" +:+ "://" +:+ "example.org/a:b"))
                    Scenario.w_fresh
    end.
Proof.
  apply (find_handler_by_scheme Scenario.self0 "git+ssh" "example.org/a:b"
           Scenario.w_fresh).
  repeat constructor; discriminate.
Defined.

(** ** The installed vendors *)

Lemma NoDup_children (f : filesystem) p : NoDup (children f p).
Proof.
  unfold children.
  assert (NoDup (map_to_list f).*1) as Hkeys by apply NoDup_fst_map_to_list.
  induction (map_to_list f) as [|[q n] l IH]; [constructor|].
  cbn [omap list_omap]. cbn in Hkeys. apply NoDup_cons in Hkeys as [Hq Hl].
  destruct (child_name p q) as [c|] eqn:Hc; [|by apply IH].
  apply NoDup_cons. split; [|by apply IH].
  intros Hin. apply list_elem_of_omap in Hin as [[q' n'] [Hin Hc']].
  apply child_name_Some in Hc as ->. apply child_name_Some in Hc' as ->.
  apply Hq. apply list_elem_of_fmap. by exists (p ++ [c], n').
Qed.

(** X2: on a vendor directory, [installed_vendors] changes nothing and
    lists, each once, exactly the entries that hold a regular file
    [metadata.json]. *)
Theorem installed_vendors_spec vendordir w :
  os_path_isdir (fs w) vendordir = true →
  ∃ names,
    installed_vendors vendordir w = Ok names w
    ∧ NoDup names
    ∧ ∀ name, name ∈ names ↔
        is_Some (fs w !! os_path_join vendordir name)
        ∧ os_path_isfile (fs w)
            (os_path_join (os_path_join vendordir name) "metadata.json") = true.
Proof.
  intros Hdir. eexists. split; [by apply installed_vendors_run|]. split.
  - apply NoDup_ListNoDup, List.NoDup_filter, NoDup_ListNoDup, NoDup_children.
  - intros name. rewrite list_elem_of_In, filter_In, <- list_elem_of_In.
    by rewrite elem_of_children.
Qed.

Lemma installed_vendors_spec_witness :
  ∃ names,
    installed_vendors Scenario.vendordir Scenario.w_two = Ok names Scenario.w_two
    ∧ NoDup names
    ∧ ∀ name, name ∈ names ↔
        is_Some (fs Scenario.w_two !! os_path_join Scenario.vendordir name)
        ∧ os_path_isfile (fs Scenario.w_two)
            (os_path_join (os_path_join Scenario.vendordir name) "metadata.json")
          = true.
Proof.
  apply (installed_vendors_spec Scenario.vendordir Scenario.w_two).
  vm_compute. reflexivity.
Defined.

(** ** The staging path *)

(** X3: where the temporary directory exists, [_tempdir] returns a path
    directly below it at which nothing exists, and leaves the world as it
    was: the file [mkstemp] made is unlinked again. *)
Theorem tempdir_fresh w :
  os_path_isdir (fs w) tempdir = true →
  ∃ name, _tempdir w = Ok (os_path_join tempdir name) w
          ∧ fs w !! os_path_join tempdir name = None.
Proof.
  intros Hdir.
  set (name := fresh_string_of_set "tmp" (list_to_set (children (fs w) tempdir))).
  assert (fs w !! os_path_join tempdir name = None) as Hfresh.
  { apply eq_None_not_Some. intros Hsome.
    apply (fresh_string_of_set_fresh (list_to_set (children (fs w) tempdir)) "tmp").
    apply elem_of_list_to_set. by apply elem_of_children. }
  exists name. split; [|done].
  unfold _tempdir, tempfile_mkstemp, mbind, M_bind, bind. rewrite Hdir.
  fold name. unfold os_unlink, os_path_isfile. rewrite stat_join. cbn [fs set_fs].
  rewrite lookup_insert_eq. cbn. f_equal.
  destruct w as [f lg d]. unfold set_fs. cbn in *. f_equal.
  by rewrite delete_insert_id.
Qed.

Lemma tempdir_fresh_witness :
  ∃ name, _tempdir Scenario.w_installed
          = Ok (os_path_join tempdir name) Scenario.w_installed
          ∧ fs Scenario.w_installed !! os_path_join tempdir name = None.
Proof.
  apply (tempdir_fresh Scenario.w_installed). vm_compute. reflexivity.
Defined.

(** ** Loading the handlers *)

Lemma for_fold_invariant {A S} (I : S → Prop) (xs : list A)
    (body : A → S → M S) s w r w' :
  (∀ x s w s' w', x ∈ xs → I s → body x s w = Ok s' w' → I s') →
  I s → for_fold xs s body w = Ok r w' → I r.
Proof.
  revert s w. induction xs as [|x xs IH]; intros s w Hbody Hs Hrun.
  - by injection Hrun as <- _.
  - cbn [for_fold] in Hrun.
    apply bind_inv_Ok in Hrun as (s1 & w1 & Hx & Hrun).
    eapply IH; [|by eapply Hbody; [left|..]|done].
    intros y s2 w2 s3 w3 Hy. apply Hbody. by right.
Qed.

Lemma for_fold_raises {A S} (xs : list A) (body : A → S → M S) x :
  x ∈ xs →
  (∀ s w, ∃ e, body x s w = Raise e w) →
  (∀ y s, readonly (body y s)) →
  ∀ s w, ∃ e, for_fold xs s body w = Raise e w.
Proof.
  intros Hx Hfail Hro. induction xs as [|y xs IH]; intros s w.
  - by apply elem_of_nil in Hx.
  - cbn [for_fold]. apply elem_of_cons in Hx as [<-|Hx].
    + destruct (Hfail s w) as [e He]. exists e. by erewrite bind_Raise.
    + pose proof (Hro y s w) as Hw.
      destruct (body y s w) as [s1 w1|e w1] eqn:Hy; simpl in Hw; subst w1.
      * destruct (IH Hx s1 w) as [e He]. exists e. by erewrite bind_Ok.
      * exists e. by erewrite bind_Raise.
Qed.

Lemma lookup_foldl_insert (f : handler) schemes (sch : gmap string handler)
    s0 f0 :
  foldl (fun sch s => <[s := f]> sch) sch schemes !! s0 = Some f0 →
  (s0 ∈ schemes ∧ f0 = f) ∨ sch !! s0 = Some f0.
Proof.
  revert sch. induction schemes as [|s schemes IH]; intros sch; cbn [foldl].
  - by right.
  - intros Hl. apply IH in Hl as [[Hin ->]|Hl].
    + left. split; [by right|done].
    + destruct (decide (s = s0)) as [->|Hne].
      * rewrite lookup_insert_eq in Hl. injection Hl as <-.
        left. split; [by left|done].
      * rewrite lookup_insert_ne in Hl by done. by right.
Qed.

(** X4: every entry of the scheme table [load_vendors] returns comes from
    the registry: it maps a scheme to the [fetch] of a module that some
    registered handler names, that can be imported and that declares the
    scheme. *)
Theorem load_vendors_sound import_ l w g sch vs w' :
  dicts w !! l = Some g →
  load_vendors import_ l w = Ok (sch, vs) w' →
  ∀ s f, sch !! s = Some f →
    ∃ handler_name module plugin schemes,
      g !! handler_name = Some module
      ∧ import_ module = Some plugin
      ∧ mod_fetch plugin = Some f
      ∧ mod_scheme plugin = Some schemes
      ∧ s ∈ schemes.
Proof.
  intros Hg Hrun. unfold load_vendors in Hrun.
  apply bind_inv_Ok in Hrun as (items & w1 & Hitems & Hrun).
  unfold dict_items in Hitems. rewrite Hg in Hitems.
  injection Hitems as <- <-. cbn [default] in Hrun.
  set (I := fun st : gmap string handler * list (string * string * string) =>
              ∀ s f, st.1 !! s = Some f →
                ∃ handler_name module plugin schemes,
                  g !! handler_name = Some module
                  ∧ import_ module = Some plugin
                  ∧ mod_fetch plugin = Some f
                  ∧ mod_scheme plugin = Some schemes
                  ∧ s ∈ schemes).
  assert (I (sch, vs)) as Hres; [|exact Hres].
  eapply (for_fold_invariant I); [| |exact Hrun]; [|by intros s f Hs]; subst I.
  intros [handler_name module] [sch0 vs0] w0 [sch1 vs1] w1 Hin Hinv Hstep.
  apply elem_of_map_to_list in Hin.
  destruct (import_ module) as [plugin|] eqn:Himport; [|done].
  destruct (mod_fetch plugin) as [fetchcmd|] eqn:Hfetch;
    [|by injection Hstep as <- <- _].
  destruct (mod_scheme plugin) as [schemes|] eqn:Hschemes;
    [|by injection Hstep as <- <- _].
  apply bind_inv_Ok in Hstep as (copyright & w2 & _ & Hstep).
  apply bind_inv_Ok in Hstep as (help & w3 & _ & Hstep).
  injection Hstep as <- <- _. cbn [fst]. intros s f Hs.
  apply lookup_foldl_insert in Hs as [[Hs ->]|Hs]; [|by apply Hinv].
  by exists handler_name, module, plugin, schemes.
Qed.

Lemma load_vendors_sound_witness :
  ∃ handler_name module plugin schemes,
    builtin_handlers !! handler_name = Some module
    ∧ Scenario.import0 module = Some plugin
    ∧ mod_fetch plugin = Some Scenario.git_fetch
    ∧ mod_scheme plugin = Some schemes
    ∧ "git+ssh" ∈ schemes.
Proof.
  eapply (load_vendors_sound Scenario.import0 GLOBAL_VENDOR_HANDLERS
            Scenario.w_fresh builtin_handlers (scheme Scenario.self0)).
  - vm_compute. reflexivity.
  - vm_compute. reflexivity.
  - vm_compute. reflexivity.
Defined.

Lemma readonly_load_vendors_turn import_ (item : string * string)
    (st : gmap string handler * list (string * string * string)) :
  readonly
    (let '(handler_name, mod_name_) := item in
     let '(scheme, vendors) := st in
     match import_ mod_name_ with
     | None => raise (ImportError mod_name_)
     | Some plugin =>
         match mod_fetch plugin, mod_scheme plugin with
         | Some fetchcmd, Some schemes =>
             copyright ← getattr_required "copyright" (mod_copyright plugin);
             help ← getattr_required "help" (mod_help plugin);
             let vendors :=
               vendors ++ [(default handler_name (mod_name plugin),
                            copyright, help)] in
             mret (foldl (fun sch s => <[s := fetchcmd]> sch) scheme schemes,
                   vendors)
         | _, _ => mret (scheme, vendors)
         end
     end).
Proof.
  destruct item as [handler_name mod_name_], st as [sch vs].
  destruct (import_ mod_name_) as [plugin|]; [|auto with readonly].
  destruct (mod_fetch plugin), (mod_scheme plugin); auto with readonly.
  unfold getattr_required.
  destruct (mod_copyright plugin), (mod_help plugin); repeat readonly_step.
Qed.

(** One registered module that cannot be imported is enough for
    [load_vendors] to raise. *)
Lemma load_vendors_unimportable import_ l w g handler_name module :
  dicts w !! l = Some g →
  g !! handler_name = Some module →
  import_ module = None →
  ∃ e, load_vendors import_ l w = Raise e w.
Proof.
  intros Hg Hh Himport. unfold load_vendors.
  erewrite bind_Ok; [|by unfold dict_items; rewrite Hg].
  cbn [default].
  apply (for_fold_raises _ _ (handler_name, module)).
  - by apply elem_of_map_to_list.
  - intros [sch vs] w0. rewrite Himport. by eexists.
  - intros [h m] [sch vs].
    exact (readonly_load_vendors_turn import_ (h, m) (sch, vs)).
Qed.

(** [__init__] is the configuration update on the global dictionary
    followed by [load_vendors] in the world that leaves. *)
Lemma Vendor_init_steps import_ u w g :
  dicts w !! GLOBAL_VENDOR_HANDLERS = Some g →
  Vendor_init import_ u w
  = ('(sch, vs) ← load_vendors import_ GLOBAL_VENDOR_HANDLERS;
     mret (mkVendor u GLOBAL_VENDOR_HANDLERS sch vs))
      (set_dicts (insert GLOBAL_VENDOR_HANDLERS
                    match conf u !! "vendor_handlers" with
                    | Some arg => dict_after_update arg g
                    | None => g
                    end) w).
Proof.
  intros Hg. unfold Vendor_init. cbv zeta.
  erewrite bind_Ok; [done|].
  destruct (conf u !! "vendor_handlers") as [arg|].
  - by apply dict_update_in_place.
  - by rewrite set_dicts_insert_id.
Qed.

(** X5: once a [Vendor] has been built from a configuration that
    registers a module which cannot be imported, the entry stays in the
    global dictionary, and the construction of every later [Vendor] whose
    configuration does not bind that key again raises. *)
Theorem unimportable_handler_breaks_later_vendors import_ ui1 arg g w k
    module ui2 later :
  dicts w !! GLOBAL_VENDOR_HANDLERS = Some g →
  conf ui1 !! "vendor_handlers" = Some arg →
  dict_after_update arg g !! k = Some module →
  import_ module = None →
  dicts later = dicts (final (Vendor_init import_ ui1 w)) →
  rebinds ui2 k = false →
  ∃ e w', Vendor_init import_ ui2 later = Raise e w'.
Proof.
  intros Hg Harg Hk Himport Hlater Hre.
  destruct (Vendor_init_world import_ ui1 w g Hg) as [Hw1 _].
  rewrite Harg in Hw1. cbv zeta in Hw1. rewrite Hw1 in Hlater.
  assert (dicts later !! GLOBAL_VENDOR_HANDLERS
          = Some (dict_after_update arg g)) as Hg1.
  { rewrite Hlater. simpl. apply lookup_insert_eq. }
  rewrite (Vendor_init_steps import_ ui2 later _ Hg1).
  set (g2 := match conf ui2 !! "vendor_handlers" with
             | Some arg2 => dict_after_update arg2 (dict_after_update arg g)
             | None => dict_after_update arg g
             end).
  set (w2 := set_dicts (insert GLOBAL_VENDOR_HANDLERS g2) later).
  assert (g2 !! k = Some module) as Hk2.
  { subst g2. unfold rebinds in Hre.
    destruct (conf ui2 !! "vendor_handlers") as [arg2|]; [|done].
    by rewrite dict_after_update_other. }
  destruct (load_vendors_unimportable import_ GLOBAL_VENDOR_HANDLERS w2 g2
              k module) as [e He]; [apply lookup_insert_eq|done..|].
  exists e, w2. by erewrite bind_Raise.
Qed.

Lemma unimportable_handler_breaks_later_vendors_witness :
  ∃ e w', Vendor_init Scenario.import0 Scenario.ui0
            (final (Vendor_init Scenario.import0 Scenario.ui_broken
                      Scenario.w_fresh))
          = Raise e w'.
Proof.
  apply (unimportable_handler_breaks_later_vendors Scenario.import0
           Scenario.ui_broken (UDict {[ "bzr" := "site.bzrvendor" ]})
           builtin_handlers Scenario.w_fresh "bzr" "site.bzrvendor"
           Scenario.ui0).
  - vm_compute. reflexivity.
  - vm_compute. reflexivity.
  - vm_compute. reflexivity.
  - vm_compute. reflexivity.
  - reflexivity.
  - vm_compute. reflexivity.
Defined.

(** X6: building a [Vendor] from a configuration without a
    ["vendor_handlers"] entry changes nothing, whether the construction
    succeeds or raises. *)
Theorem Vendor_init_without_overrides import_ u w :
  conf u !! "vendor_handlers" = None →
  final (Vendor_init import_ u w) = w.
Proof.
  intros Hconf. unfold Vendor_init. rewrite Hconf. cbv zeta.
  erewrite bind_Ok; [|done].
  pose proof (readonly_load_vendors import_ GLOBAL_VENDOR_HANDLERS w) as Hro.
  unfold mbind, M_bind, bind.
  by destruct (load_vendors import_ GLOBAL_VENDOR_HANDLERS w) as [[sch vs] w1|e w1].
Qed.

Lemma Vendor_init_without_overrides_witness :
  final (Vendor_init Scenario.import0 Scenario.ui0 Scenario.w_installed)
  = Scenario.w_installed.
Proof.
  apply (Vendor_init_without_overrides Scenario.import0 Scenario.ui0
           Scenario.w_installed).
  vm_compute. reflexivity.
Defined.






(** On that configuration the constructor returns a [Vendor] that resolves
    the [svn] scheme registered before the bad element. *)
Example malformed_sequence_run :
  match Vendor_init Scenario.import0 Scenario.ui_seq Scenario.w_fresh with
  | Ok v _ => match scheme v !! "svn" with Some _ => true | None => false end
  | Raise _ _ => false
  end = true.
Proof. run_code. Qed.

(** ** What the operations do before and instead of fetching *)

Lemma final_catch_EEXIST (m : M unit) (w : world) :
  final match m w with
        | Raise (OSError "EEXIST") w1 => Ok tt w1
        | r => r
        end = final (m w).
Proof.
  destruct (m w) as [[] w1|e w1]; [done|].
  destruct e; try done. repeat case_match; done.
Qed.

Lemma os_mkdir_frame p w :
  logged (final (os_mkdir p w)) = logged w
  ∧ dicts (final (os_mkdir p w)) = dicts w.
Proof.
  unfold os_mkdir.
  by destruct (os_path_exists (fs w) p), (os_path_isdir (fs w) (dirname p)).
Qed.

(** Creating directories touches neither the log nor the registry. *)
Lemma makedirs_rec_frame n p w :
  logged (final (makedirs_rec n p w)) = logged w
  ∧ dicts (final (makedirs_rec n p w)) = dicts w.
Proof.
  revert p w. induction n as [|n IH]; intros p w; cbn [makedirs_rec].
  - apply os_mkdir_frame.
  - unfold mbind, M_bind, bind, get_world.
    destruct (dirname p) as [|c head] eqn:Hhead.
    + apply os_mkdir_frame.
    + destruct (os_path_exists (fs w) (c :: head)); [apply os_mkdir_frame|].
      pose proof (IH (c :: head) w) as [Hlog Hdicts].
      destruct (match makedirs_rec n (c :: head) w with
                | Raise (OSError "EEXIST") w1 => Ok tt w1
                | r => r
                end) as [[] w1|e w1] eqn:Hcatch.
      * assert (w1 = final (makedirs_rec n (c :: head) w)) as Hw1.
        { change w1 with (final (Ok tt w1 : outcome unit)).
          rewrite <- Hcatch. apply (final_catch_EEXIST (makedirs_rec n (c :: head))). }
        destruct (os_mkdir_frame p w1) as [Hlog1 Hdicts1].
        rewrite <- Hw1 in Hlog, Hdicts. split; congruence.
      * assert (w1 = final (makedirs_rec n (c :: head) w)) as Hw1.
        { change w1 with (final (Raise e w1 : outcome unit)).
          rewrite <- Hcatch. apply (final_catch_EEXIST (makedirs_rec n (c :: head))). }
        rewrite <- Hw1 in Hlog, Hdicts. done.
Qed.

Lemma ensure_vendordir_frame vendordir w :
  logged (final (ensure_vendordir vendordir w)) = logged w
  ∧ dicts (final (ensure_vendordir vendordir w)) = dicts w.
Proof.
  unfold ensure_vendordir, mbind, M_bind, bind, get_world.
  destruct (os_path_isdir (fs w) vendordir); [done|].
  apply makedirs_rec_frame.
Qed.

(** X8: [Vendor.install] and single-name [Vendor.update] raise on every
    input; all they can have done by then is create the vendor directory:
    nothing is logged and the registry is as it was. *)
Theorem vendor_methods_always_raise (self : Vendor) appdir uri name args opts w :
  (∃ e w', Vendor_install self appdir uri args opts w = Raise e w'
           ∧ logged w' = logged w ∧ dicts w' = dicts w)
  ∧ (∃ e w', Vendor_update self appdir (Some name) args opts w = Raise e w'
             ∧ logged w' = logged w ∧ dicts w' = dicts w).
Proof.
  pose proof (ensure_vendordir_frame (os_path_join appdir "vendor") w)
    as [Hlog Hdicts].
  split.
  - unfold Vendor_install, install. cbv zeta.
    destruct (ensure_vendordir (os_path_join appdir "vendor") w)
      as [[] w1|e w1] eqn:Hensure; simpl in Hlog, Hdicts.
    + exists (AttributeError "find_vendor"), w1. split; [|done].
      erewrite bind_Ok; [|done]. erewrite bind_Raise; [done|].
      apply fetch_vendor_raises.
    + exists e, w1. split; [|done]. by erewrite bind_Raise.
  - unfold Vendor_update, update. cbv zeta.
    destruct (ensure_vendordir (os_path_join appdir "vendor") w)
      as [[] w1|e w1] eqn:Hensure; simpl in Hlog, Hdicts;
      [|exists e, w1; split; [|done]; by erewrite bind_Raise].
    pose proof (readonly_installed_vendors (os_path_join appdir "vendor") w1)
      as Hro.
    destruct (installed_vendors (os_path_join appdir "vendor") w1)
      as [names w2|e w2] eqn:Hnames; simpl in Hro; subst w2.
    2:{ exists e, w1. split; [|done].
        erewrite bind_Ok; [|exact Hensure]. erewrite bind_Raise; [done|].
        by erewrite bind_Raise. }
    destruct (bool_decide (name ∈ names)) eqn:Hin.
    2:{ eexists _, w1. split; [|done].
        erewrite bind_Ok; [|exact Hensure]. erewrite bind_Raise; [done|].
        erewrite bind_Ok; [|exact Hnames]. by rewrite Hin. }
    set (metaf := os_path_join (os_path_join (os_path_join appdir "vendor") name)
                               "metadata.json").
    pose proof (readonly_ui_read_json metaf w1) as Hro.
    destruct (ui_read_json metaf w1) as [m w2|e w2] eqn:Hread;
      simpl in Hro; subst w2.
    2:{ exists e, w1. split; [|done].
        erewrite bind_Ok; [|exact Hensure]. erewrite bind_Raise; [done|].
        erewrite bind_Ok; [|exact Hnames]. rewrite Hin. cbn [negb].
        by erewrite bind_Raise. }
    destruct (truthy (dict_get m "fetch_uri" (JStr ""))) eqn:Huri.
    + exists (AttributeError "find_vendor"), w1. split; [|done].
      erewrite bind_Ok; [|exact Hensure]. erewrite bind_Raise; [done|].
      erewrite bind_Ok; [|exact Hnames]. rewrite Hin. cbn [negb].
      erewrite bind_Ok; [|exact Hread]. rewrite Huri. cbn [negb].
      erewrite bind_Raise; [done|]. apply fetch_vendor_raises.
    + eexists _, w1. split; [|done].
      erewrite bind_Ok; [|exact Hensure]. erewrite bind_Raise; [done|].
      erewrite bind_Ok; [|exact Hnames]. rewrite Hin. cbn [negb].
      erewrite bind_Ok; [|exact Hread]. by rewrite Huri.
Qed.

Lemma installed_vendors_isdir vendordir names w w' :
  installed_vendors vendordir w = Ok names w' →
  os_path_isdir (fs w) vendordir = true.
Proof.
  intros Hrun. apply bind_inv_Ok in Hrun as (l & w1 & Hls & _).
  unfold os_listdir in Hls. by destruct (os_path_isdir (fs w) vendordir).
Qed.

(** X9: bulk update of a project whose vendor directory holds no
    installed vendor returns 0 in the world it was called in: nothing is
    fetched, created or deleted. *)
Theorem bulk_update_nothing_installed fetch self_ui appdir args opts w :
  installed_vendors (os_path_join appdir "vendor") w = Ok [] w →
  update fetch self_ui appdir None args opts w = Ok 0%Z w.
Proof.
  intros Hnone. unfold update. cbv zeta.
  erewrite bind_Ok;
    [|by eapply ensure_vendordir_present, installed_vendors_isdir].
  erewrite bind_Ok; [done|]. erewrite bind_Ok; [|done]. done.
Qed.

Lemma bulk_update_nothing_installed_witness :
  update (fetch_vendor Scenario.self0) Scenario.ui0 Scenario.app None [] ∅
         Scenario.w_plain
  = Ok 0%Z Scenario.w_plain.
Proof.
  apply (bulk_update_nothing_installed _ Scenario.ui0 Scenario.app [] ∅
           Scenario.w_plain).
  vm_compute. reflexivity.
Defined.

(** X10: single-name update of a name that [installed_vendors] does not
    list raises the not-found error in the world it was called in, before
    any metadata is read or anything fetched. *)
Theorem update_unknown_vendor fetch self_ui appdir name args opts names w :
  installed_vendors (os_path_join appdir "vendor") w = Ok names w →
  name ∉ names →
  update fetch self_ui appdir (Some name) args opts w
  = Raise (VendorNotFoundError name) w.
Proof.
  intros Hnames Hnot. unfold update. cbv zeta.
  erewrite bind_Ok;
    [|by eapply ensure_vendordir_present, installed_vendors_isdir].
  erewrite bind_Raise; [done|]. erewrite bind_Ok; [|done].
  by rewrite bool_decide_eq_false_2.
Qed.

Lemma update_unknown_vendor_witness :
  update (fetch_vendor Scenario.self0) Scenario.ui0 Scenario.app
         (Some "notes") [] ∅ Scenario.w_plain
  = Raise (VendorNotFoundError "notes") Scenario.w_plain.
Proof.
  apply (update_unknown_vendor _ Scenario.ui0 Scenario.app "notes" [] ∅ []
           Scenario.w_plain).
  - vm_compute. reflexivity.
  - apply not_elem_of_nil.
Defined.

(** X11: a turn of bulk update for a vendor whose metadata has no usable
    [fetch_uri]: with [verbose] below 1 the vendor is skipped and nothing
    changes; with [verbose] at 1 or more the turn raises the attribute
    error of [ui.logget] instead of logging the error. *)
Theorem bulk_update_vendor_without_source fetch self_ui vendordir force
    args opts vendor updated dest1 w m :
  vendor ∉ updated →
  fs w !! os_path_join (os_path_join vendordir vendor) "metadata.json"
  = Some (File (JsonDoc m)) →
  truthy (dict_get m "fetch_uri" (JStr "")) = false →
  update_all_vendor fetch self_ui vendordir force args opts vendor
    (updated, dest1) w
  = if (verbose self_ui >=? 1)%Z then Raise (AttributeError "logget") w
    else Ok (updated, dest1) w.
Proof.
  intros Hnew Hmeta Huri. unfold update_all_vendor. cbn [fst].
  rewrite bool_decide_eq_false_2 by done.
  erewrite bind_Ok; [|by unfold ui_read_json; rewrite stat_join, Hmeta].
  rewrite Huri. cbn [negb].
  by destruct (verbose self_ui >=? 1)%Z.
Qed.

Lemma bulk_update_vendor_without_source_witness :
  update_all_vendor (fetch_vendor Scenario.self0) Scenario.ui0
    Scenario.vendordir false [] ∅ "jquery" ([], None) Scenario.w_nosource
  = if (verbose Scenario.ui0 >=? 1)%Z
    then Raise (AttributeError "logget") Scenario.w_nosource
    else Ok ([], None) Scenario.w_nosource.
Proof.
  apply (bulk_update_vendor_without_source _ Scenario.ui0 Scenario.vendordir
           false [] ∅ "jquery" [] None Scenario.w_nosource
           {[ "description" := JStr "jQuery" ]}).
  - apply not_elem_of_nil.
  - vm_compute. reflexivity.
  - vm_compute. reflexivity.
Defined.

(** The two outcomes on the project of the scenario, as whole runs. *)
Example bulk_update_without_source_run :
  update (fetch_vendor Scenario.self0) Scenario.ui0 Scenario.app None [] ∅
         Scenario.w_nosource
  = Raise (AttributeError "logget") Scenario.w_nosource
  ∧ update (fetch_vendor Scenario.self0) Scenario.ui_quiet Scenario.app None
           [] ∅ Scenario.w_nosource
    = Ok 0%Z Scenario.w_nosource.
Proof. split; run_code. Qed.

(** ** The copy of a staged bundle *)

Lemma resolve_ext (f1 f2 : filesystem) cur comps :
  (∀ x, os_path_isdir f1 x = os_path_isdir f2 x) →
  resolve f1 cur comps = resolve f2 cur comps.
Proof.
  intros Hsame. revert cur. induction comps as [|c comps IH]; intros cur; [done|].
  cbn [resolve]. rewrite Hsame. by destruct (os_path_isdir f2 cur).
Qed.

Lemma resolve_mono (f1 f2 : filesystem) cur comps q :
  (∀ x, os_path_isdir f1 x = true → os_path_isdir f2 x = true) →
  resolve f1 cur comps = Some q → resolve f2 cur comps = Some q.
Proof.
  intros Hsub. revert cur. induction comps as [|c comps IH]; intros cur; [done|].
  cbn [resolve]. destruct (os_path_isdir f1 cur) eqn:Hdir; [|done].
  rewrite (Hsub _ Hdir). apply IH.
Qed.

Lemma resolve_snoc (f : filesystem) cur comps c :
  resolve f cur (comps ++ [c])
  = match resolve f cur comps with
    | Some p => if os_path_isdir f p then Some (walk_step p c) else None
    | None => None
    end.
Proof.
  revert cur. induction comps as [|d comps IH]; intros cur; cbn [app resolve].
  - by destruct (os_path_isdir f cur).
  - by destruct (os_path_isdir f cur).
Qed.

(** Writing a regular file where there was no directory leaves the
    directories what they were. *)
Lemma isdir_insert_file (f : filesystem) p c x :
  os_path_isdir f p = false →
  os_path_isdir (<[p := File c]> f) x = os_path_isdir f x.
Proof.
  intros Hp. unfold os_path_isdir, stat in *.
  destruct x as [|a x]; [done|].
  destruct (decide (p = a :: x)) as [->|Hne].
  - rewrite lookup_insert_eq. by destruct (f !! (a :: x)) as [[]|].
  - by rewrite lookup_insert_ne.
Qed.

Lemma isdir_deltree (f : filesystem) p x :
  os_path_isdir (filter (fun '(q, _) => ¬ p `prefix_of` q) f) x = true →
  os_path_isdir f x = true.
Proof.
  unfold os_path_isdir, stat. destruct x as [|a x]; [done|].
  destruct (filter _ f !! (a :: x)) as [n|] eqn:Hl; [|done].
  apply map_lookup_filter_Some in Hl as [-> _]. done.
Qed.

Lemma shutil_copy_outcome src dst w :
  os_path_isdir (fs w) dst = false →
  (∃ e, shutil_copy src dst w = Raise e w)
  ∨ (∃ c, shutil_copy src dst w = Ok tt (set_fs (insert dst (File c)) w)).
Proof.
  intros Hdst. unfold shutil_copy. rewrite Hdst. cbv zeta.
  destruct (stat (fs w) src) as [[c|]|]; [|left; by eexists..].
  rewrite Hdst.
  destruct (os_path_isdir (fs w) (dirname dst)); [|left; by eexists].
  right. by exists c.
Qed.

(** Where the copy to a path string that is no directory, followed by the
    metadata write below it, ends: with an exception, nothing logged, and
    every directory what it was.  [shutil.copy] refuses a staged
    directory, and what it does copy is a regular file, below which no
    metadata file can be written. *)
Lemma copy_then_write_outcome vpath (pn : pathname) m (k : M unit) w :
  isdir_pathname (fs w) pn = false →
  ∃ e w',
    (shutil_copy_pathname vpath pn;;
     ui_write_json_pathname (pathname_join pn "metadata.json") m;;
     k) w = Raise e w'
    ∧ logged w' = logged w
    ∧ ∀ x, os_path_isdir (fs w') x = os_path_isdir (fs w) x.
Proof.
  intros Hdest. unfold isdir_pathname in Hdest.
  destruct (locate (fs w) pn) as [p|] eqn:Hloc.
  - destruct (shutil_copy_outcome vpath p w Hdest) as [[e Hcopy]|[c Hcopy]].
    + exists e, w. split; [|done]. erewrite bind_Raise; [done|].
      unfold shutil_copy_pathname. by rewrite Hloc.
    + set (w1 := set_fs (insert p (File c)) w) in *.
      assert (∀ x, os_path_isdir (fs w1) x = os_path_isdir (fs w) x) as Hdirs.
      { intros x. by apply isdir_insert_file. }
      exists (IOError "ENOTDIR"), w1. split; [|done].
      erewrite bind_Ok; [|by unfold shutil_copy_pathname; rewrite Hloc].
      erewrite bind_Raise; [done|].
      unfold ui_write_json_pathname, locate, pathname_join. cbn [fst snd].
      rewrite resolve_snoc, (resolve_ext _ (fs w)) by done.
      unfold locate in Hloc. rewrite Hloc, Hdirs. by rewrite Hdest.
  - exists (match stat (fs w) vpath with
            | None => IOError "ENOENT"
            | Some Dir => IOError "EISDIR"
            | Some (File _) => IOError "ENOTDIR"
            end), w.
    split; [|done]. erewrite bind_Raise; [done|].
    unfold shutil_copy_pathname. rewrite Hloc.
    by destruct (stat (fs w) vpath) as [[]|].
Qed.

(** X13: in the loop of [install], a bundle whose destination (the vendor
    directory joined with the bundle's name, whatever string that is) is
    not an existing directory is never installed, forced or not: the turn
    raises, logs nothing, and no directory comes into being or goes
    away, so the destination is still no directory. *)
Theorem install_absent_destination_raises self_ui vendordir force name vpath
    m s w :
  dict_get m "name" (JStr name) = JStr s →
  isdir_pathname (fs w) (os_path_join_name vendordir s) = false →
  ∃ e w',
    install_bundle self_ui vendordir force (name, vpath, m) w = Raise e w'
    ∧ logged w' = logged w
    ∧ (∀ x, os_path_isdir (fs w') x = os_path_isdir (fs w) x)
    ∧ isdir_pathname (fs w') (os_path_join_name vendordir s) = false.
Proof.
  intros Hname Hdest.
  destruct (copy_then_write_outcome vpath (os_path_join_name vendordir s) m
              (log_installed self_ui) w Hdest)
    as (e & w' & Hraise & Hlog & Hdirs).
  exists e, w'. split; [|split; [done|split; [done|]]].
  - unfold install_bundle. rewrite Hname.
    erewrite bind_Ok; [|done]. cbv beta iota.
    erewrite bind_Ok; [|done]. by rewrite Hdest.
  - unfold isdir_pathname, locate in *.
    rewrite (resolve_ext _ (fs w)) by done.
    destruct (resolve (fs w) _ _); [by rewrite Hdirs|done].
Qed.

Lemma install_absent_destination_raises_witness :
  ∃ e w',
    install_bundle Scenario.ui0 Scenario.vendordir false
      ("jquery", ["tmp"; "tmp"; "jquery"],
       {[ "name" := JStr "lib/jquery"; "fetch_uri" := Scenario.jquery_uri ]})
      (Scenario.stage Scenario.w_plain) = Raise e w'
    ∧ logged w' = logged (Scenario.stage Scenario.w_plain)
    ∧ (∀ x, os_path_isdir (fs w') x
            = os_path_isdir (fs (Scenario.stage Scenario.w_plain)) x)
    ∧ isdir_pathname (fs w')
        (os_path_join_name Scenario.vendordir "lib/jquery") = false.
Proof.
  apply (install_absent_destination_raises Scenario.ui0 Scenario.vendordir
           false "jquery" ["tmp"; "tmp"; "jquery"] _ "lib/jquery"
           (Scenario.stage Scenario.w_plain)).
  - vm_compute. reflexivity.
  - vm_compute. reflexivity.
Defined.

(** X14: in the loop of [install] with [force], a bundle whose destination
    is an existing directory other than the root is not installed: the
    turn deletes that directory and then raises in the copy, so that
    afterwards it is no directory any more and nothing has been logged. *)
Theorem install_forced_loses_destination self_ui vendordir name vpath m s p w :
  dict_get m "name" (JStr name) = JStr s →
  locate (fs w) (os_path_join_name vendordir s) = Some p →
  os_path_isdir (fs w) p = true →
  p ≠ [] →
  ∃ e w',
    install_bundle self_ui vendordir true (name, vpath, m) w = Raise e w'
    ∧ logged w' = logged w
    ∧ os_path_isdir (fs w') p = false.
Proof.
  intros Hname Hloc Hdir Hroot.
  set (pn := os_path_join_name vendordir s) in *.
  set (w1 := set_fs (filter (fun '(q, _) => ¬ p `prefix_of` q)) w).
  assert (os_path_isdir (fs w1) p = false) as Hgone.
  { apply released_not_isdir; [done|apply released_deltree]. }
  assert (isdir_pathname (fs w1) pn = false) as Hdest1.
  { unfold isdir_pathname. destruct (locate (fs w1) pn) as [p'|] eqn:Hloc1; [|done].
    apply (resolve_mono _ (fs w)) in Hloc1; [|intros x; apply isdir_deltree].
    unfold locate in Hloc. rewrite Hloc in Hloc1. by injection Hloc1 as <-. }
  destruct (copy_then_write_outcome vpath pn m (log_installed self_ui) w1 Hdest1)
    as (e & w' & Hraise & Hlog & Hdirs).
  exists e, w'. split; [|split; [done|by rewrite Hdirs]].
  unfold install_bundle. rewrite Hname.
  erewrite bind_Ok; [|done]. cbv beta iota.
  erewrite bind_Ok; [|done]. fold pn.
  assert (isdir_pathname (fs w) pn = true) as ->.
  { unfold isdir_pathname. by rewrite Hloc. }
  erewrite bind_Raise; [done|].
  erewrite bind_Ok; [|by unfold ui_deltree_pathname; rewrite Hloc].
  exact Hraise.
Qed.

(** With an empty name in the metadata the destination is the vendor
    directory itself, and the forced turn takes it away whole. *)
Lemma install_forced_loses_destination_witness :
  ∃ e w',
    install_bundle Scenario.ui0 Scenario.vendordir true
      ("jquery", ["tmp"; "tmp"; "jquery"],
       {[ "name" := JStr ""; "fetch_uri" := Scenario.jquery_uri ]})
      (Scenario.stage Scenario.w_installed) = Raise e w'
    ∧ logged w' = logged (Scenario.stage Scenario.w_installed)
    ∧ os_path_isdir (fs w') Scenario.vendordir = false.
Proof.
  apply (install_forced_loses_destination Scenario.ui0 Scenario.vendordir
           "jquery" ["tmp"; "tmp"; "jquery"] _ "" Scenario.vendordir
           (Scenario.stage Scenario.w_installed)).
  - vm_compute. reflexivity.
  - vm_compute. reflexivity.
  - vm_compute. reflexivity.
  - discriminate.
Defined.

(** The same name without [force]: the destination is the vendor
    directory, which exists, so the turn logs the error and returns. *)
Example install_empty_name_run :
  install_bundle Scenario.ui0 Scenario.vendordir false
    ("jquery", ["tmp"; "tmp"; "jquery"],
     {[ "name" := JStr ""; "fetch_uri" := Scenario.jquery_uri ]})
    (Scenario.stage Scenario.w_installed)
  = Ok tt (set_logged (fun l => l ++ [(ERROR, "vendor:  already installed")])
             (Scenario.stage Scenario.w_installed)).
Proof. run_code. Qed.

(** ** The scan of the staging directory *)

(** X15: once the fetch command is known and has run, a staging directory
    with at least one entry makes the scan of [fetch_vendor] raise the name
    error of the unbound [p], in the world the handler left: no bundle is
    returned and the staging directory is not deleted. *)
Theorem scan_of_nonempty_staging_raises self fetchfun uri args opts w path
    w1 w2 name names :
  _tempdir w = Ok path w1 →
  fetchfun (ui self) uri path args opts w1 = Ok tt w2 →
  os_listdir path w2 = Ok (name :: names) w2 →
  fetch_with self fetchfun uri args opts w = Raise (NameError "p") w2
  ∧ os_path_isdir (fs w2) path = true.
Proof.
  intros Htmp Hfetch Hls. split.
  - unfold fetch_with.
    erewrite bind_Ok; [|done]. erewrite bind_Ok; [|done].
    erewrite bind_Ok; [|done]. reflexivity.
  - unfold os_listdir in Hls. by destruct (os_path_isdir (fs w2) path).
Qed.

Lemma scan_of_nonempty_staging_raises_witness :
  fetch_with Scenario.self0 Scenario.git_fetch Scenario.jquery_uri [] ∅
    Scenario.w_installed
  = Raise (NameError "p")
      (set_fs (insert (Scenario.staging ++ ["jquery"; "metadata.json"])
                 (File (JsonDoc {[ "description" := JStr "jQuery" ]})))
         (Scenario.stage Scenario.w_installed))
  ∧ os_path_isdir
      (fs (set_fs (insert (Scenario.staging ++ ["jquery"; "metadata.json"])
                     (File (JsonDoc {[ "description" := JStr "jQuery" ]})))
             (Scenario.stage Scenario.w_installed)))
      Scenario.staging = true.
Proof.
  apply (scan_of_nonempty_staging_raises Scenario.self0 Scenario.git_fetch
           Scenario.jquery_uri [] ∅ Scenario.w_installed Scenario.staging
           Scenario.w_installed _ "jquery" []).
  - vm_compute. reflexivity.
  - vm_compute. reflexivity.
  - vm_compute. reflexivity.
Defined.

(** X16: once the fetch command is known and has run, a staging directory
    without any entry makes [fetch_vendor]'s scan delete the staging
    directory and raise the invalid-vendor error. *)
Theorem scan_of_empty_staging_cleans_up self fetchfun uri args opts w path
    w1 w2 :
  _tempdir w = Ok path w1 →
  fetchfun (ui self) uri path args opts w1 = Ok tt w2 →
  os_listdir path w2 = Ok [] w2 →
  fetch_with self fetchfun uri args opts w
  = Raise InvalidVendorError
      (set_fs (filter (fun '(q, _) => ¬ path `prefix_of` q)) w2)
  ∧ released path (set_fs (filter (fun '(q, _) => ¬ path `prefix_of` q)) w2).
Proof.
  intros Htmp Hfetch Hls. split; [|apply released_deltree].
  unfold fetch_with.
  erewrite bind_Ok; [|done]. erewrite bind_Ok; [|done].
  erewrite bind_Ok; [|done]. cbn [for_fold].
  erewrite bind_Ok; [|done]. reflexivity.
Qed.

Lemma scan_of_empty_staging_cleans_up_witness :
  fetch_with Scenario.self0 Scenario.hg_fetch (JStr "hg://example.org/r") [] ∅
    Scenario.w_installed
  = Raise InvalidVendorError
      (set_fs (filter (fun '(q, _) => ¬ Scenario.staging `prefix_of` q))
         (set_fs (insert Scenario.staging Dir) Scenario.w_installed))
  ∧ released Scenario.staging
      (set_fs (filter (fun '(q, _) => ¬ Scenario.staging `prefix_of` q))
         (set_fs (insert Scenario.staging Dir) Scenario.w_installed)).
Proof.
  apply (scan_of_empty_staging_cleans_up Scenario.self0 Scenario.hg_fetch
           (JStr "hg://example.org/r") [] ∅ Scenario.w_installed
           Scenario.staging Scenario.w_installed).
  - vm_compute. reflexivity.
  - vm_compute. reflexivity.
  - vm_compute. reflexivity.
Defined.
